(** * The Echonest extension of Pitivi, as a shallow embedding

    The Python module [echonest_extension.py] holds two classes:
    [AudioPreviewer], which draws a cached waveform with beat markers on a
    drawing area, and [EchonestExtension], which fetches a track analysis
    (from a file cache or from the Echonest service), and fills a dialog
    with it.

    Python objects that are mutated and shared (builders, previewers,
    threads) live in heaps indexed by their identity; every method is a
    computation in a state-and-exception monad over one [world]. *)

From Stdlib Require Import ZArith List String Ascii Lia Bool.
From Stdlib Require Import Floats.PrimFloat Floats.SpecFloat Floats.FloatOps.
From Stdlib Require Import Uint63 Sorted.
From stdpp Require Import base option list gmap strings pretty.

Local Open Scope Z_scope.

(** ** Python values and built-ins *)

Module Py.

(** [errno] values of the [IOError]s that [open] raises. *)
Inductive errno := ENOENT | EACCES | EISDIR | EIO.

(** The exceptions the module can meet.  [IOError] stands for the whole
    [IOError]/[OSError] family ([FileNotFoundError], [PermissionError],
    [IsADirectoryError] are its subclasses). *)
Inductive exn :=
| IOError (code : errno)
| EOFError
| UnpicklingError
| PicklingError
| ValueError
| TypeError
| AttributeError
| ZeroDivisionError
| OverflowError
| EchoNestAPIError (code : Z)
| EchoNestIOError.

(** [isinstance(e, IOError)] *)
Definition isinstance_IOError (e : exn) : bool :=
  match e with
  | IOError _ => true
  | _ => false
  end.

(** The outcome of evaluating an expression: a value or a raised
    exception. *)
Inductive result (A : Type) :=
| Return (a : A)
| Raise (e : exn).
Arguments Return {A} a.
Arguments Raise {A} e.

Definition rbind {A B} (r : result A) (k : A -> result B) : result B :=
  match r with
  | Return a => k a
  | Raise e => Raise e
  end.

(** A list comprehension [[f x for x in l]] whose body may raise: the
    elements are evaluated left to right and the first exception ends
    the comprehension. *)
Fixpoint comprehension {A B} (f : A -> result B) (l : list A) : result (list B) :=
  match l with
  | [] => Return []
  | x :: xs =>
      match f x with
      | Raise e => Raise e
      | Return y =>
          match comprehension f xs with
          | Raise e => Raise e
          | Return ys => Return (y :: ys)
          end
      end
  end.

(** *** Floats: Python floats are IEEE 754 binary64 numbers *)

(** [a / b] on floats: a zero divisor (of either sign) raises. *)
Definition truediv (a b : float) : result float :=
  if PrimFloat.eqb b 0%float then Raise ZeroDivisionError
  else Return (PrimFloat.div a b).

(** The conversion of an [int] operand in a mixed [float * int]
    product (widget sizes are well inside the 63 bits). *)
Definition float_of_int (z : Z) : float :=
  if z <? 0 then PrimFloat.opp (PrimFloat.of_uint63 (Uint63.of_Z (- z)))
  else PrimFloat.of_uint63 (Uint63.of_Z z).

(** [int(f)]: truncation towards zero; [nan] and the infinities raise. *)
Definition int_of_float (f : float) : result Z :=
  match Prim2SF f with
  | S754_zero _ => Return 0
  | S754_infinity _ => Raise OverflowError
  | S754_nan => Raise ValueError
  | S754_finite s m e =>
      let a := if 0 <=? e then Z.pos m * 2 ^ e else Z.pos m / 2 ^ (- e) in
      Return (if s then - a else a)
  end.

(** [max(l)] on a list of floats: the first item, replaced by each later
    item that compares greater; an empty list raises [ValueError]. *)
Definition max (l : list float) : result float :=
  match l with
  | [] => Raise ValueError
  | x :: xs =>
      Return (fold_left (fun m y => if PrimFloat.ltb m y then y else m) xs x)
  end.

(** *** Extended slices *)

(** The items of [l] at the positions [k], [k + step], ... counted from
    the head, for [step = S pred_step]. *)
Fixpoint every_from {A} (pred_step k : nat) (l : list A) : list A :=
  match l with
  | [] => []
  | x :: xs =>
      match k with
      | O => x :: every_from pred_step pred_step xs
      | S k' => every_from pred_step k' xs
      end
  end.

(** [l[0::step]]: a zero step raises; a positive one walks up from the
    first item; a negative one walks down from index 0, so it keeps the
    first item only. *)
Definition slice_from0_step {A} (l : list A) (step : Z) : result (list A) :=
  if step =? 0 then Raise ValueError
  else if 0 <? step then Return (every_from (Z.to_nat step - 1) 0 l)
  else Return (firstn 1 l).

(** *** [os.path.join] (posixpath), for two components *)

Fixpoint endswith_slash (s : string) : bool :=
  match s with
  | EmptyString => false
  | String c EmptyString => Ascii.eqb c "/"
  | String _ rest => endswith_slash rest
  end.

Definition path_join (a b : string) : string :=
  if String.prefix "/" b then b
  else if (String.eqb a "" || endswith_slash a)%bool then a +:+ b
  else a +:+ "/" +:+ b.

End Py.
Export Py.

(** ** The data of the module *)

(** An event of an analysis (a beat, a bar, ...): a dictionary of the
    service, of which the module reads the key ['start']. *)
Record beat := Beat { start : float }.

(** The value of an instance attribute of a track. *)
Inductive attr :=
| AttrNone
| AttrInt (z : Z)
| AttrFloat (f : float)
| AttrStr (s : string)
| AttrEvents (l : list beat).

(** An analysed track of [pyechonest]: the two attributes the module
    computes with, and the rest of its [__dict__]. *)
Record track := Track {
  duration : float;
  beats : list beat;
  extra : list (string * attr)
}.

Definition __dict__ (t : track) : list (string * attr) :=
  ("duration", AttrFloat (duration t)) :: ("beats", AttrEvents (beats t)) :: extra t.

(** What a cache file can unpickle to. *)
Inductive pyobj :=
| PyNone
| PyInt (z : Z)
| PyList (l : list float)
| PyTrack (t : track).

(** Truth value testing: [None], zero and empty sequences are false; an
    instance of a class with neither [__bool__] nor [__len__], as
    [Track], is true. *)
Definition truthy (v : pyobj) : bool :=
  match v with
  | PyNone => false
  | PyInt z => negb (z =? 0)
  | PyList l => match l with [] => false | _ :: _ => true end
  | PyTrack _ => true
  end.

(** ** The file system *)

(** A regular file, which the process may access or not, or a directory. *)
Inductive file :=
| Regular (accessible : bool) (data : list Byte.byte)
| Directory.

Abbreviation filesystem := (gmap string file).

Inductive open_mode := Rb | Wb.

(** [open(path, 'rb')] followed by reading the whole file. *)
Definition open_rb (fs : filesystem) (path : string) : result (list Byte.byte) :=
  match fs !! path with
  | None => Raise (IOError ENOENT)
  | Some Directory => Raise (IOError EISDIR)
  | Some (Regular a data) => if a then Return data else Raise (IOError EACCES)
  end.

(** [open(path, 'wb')]: the file is created or truncated.  The directory
    exists: [get_dir] has created it. *)
Definition open_wb (fs : filesystem) (path : string) : result filesystem :=
  match fs !! path with
  | None => Return (<[path := Regular true []]> fs)
  | Some Directory => Raise (IOError EISDIR)
  | Some (Regular a _) =>
      if a then Return (<[path := Regular a []]> fs) else Raise (IOError EACCES)
  end.

(** Writing [data] to the file opened at [path]. *)
Definition write_all (fs : filesystem) (path : string) (data : list Byte.byte) : filesystem :=
  match fs !! path with
  | Some (Regular a _) => <[path := Regular a data]> fs
  | _ => fs
  end.

(** ** The dialog of [clip-dialog.ui] *)

Record combo := Combo {
  active_id : option string;
  combo_sensitive : bool
}.

Record spinner := Spinner {
  value : float;
  lower : float;
  upper : float;
  spinner_sensitive : bool
}.

(** The drawing area ['waveform_area']: its allocation, the classes of its
    style context, the previewers connected to its ['draw'] signal and the
    redraws queued on it. *)
Record drawing_area := DrawingArea {
  alloc_width : Z;
  alloc_height : Z;
  style_classes : list string;
  draw_handlers : list nat;
  queued_draws : nat
}.

Record dialog := Dialog {
  metadata_list : list string;
  waveform_area : drawing_area;
  range_combo : combo;
  select_type_combo : combo;
  distribution_combo : combo;
  step_spinner : spinner;
  beat_label : string;
  transient_for_gui : bool;
  destroyed : bool
}.

(** ** What the module takes from its host and its libraries *)

Class Host := {
  (** [pitivi.utils.misc.hash_file]: the hex digest of the content of a
      media file.  The media files are inputs of the module, which never
      writes them: their content, and so their digest, is fixed. *)
  hash_file : string -> result string;
  (** [pitivi.settings.xdg_cache_home()] *)
  xdg_cache_home : string;
  (** [pickle.load] on the bytes of a file, [pickle.dump] to bytes *)
  pickle_load : list Byte.byte -> result pyobj;
  pickle_dump : pyobj -> result (list Byte.byte);
  (** what a [pickle.dump] that raises has written to the file by then:
      the pickler writes while it runs, so that a part of the stream, or
      nothing, is in the file *)
  pickle_dump_written : pyobj -> list Byte.byte;
  (** [pyechonest.track.track_from_filename], which uploads the file, and
      [Track.get_analysis], which fills the track in place *)
  track_from_filename : string -> result track;
  get_analysis : track -> result track;
  (** [str(value)] *)
  py_str : attr -> string;
  (** [GLib.filename_from_uri(uri)[0]] *)
  filename_from_uri : string -> result string;
  (** the dialog that [Gtk.Builder.add_from_file] builds from
      [clip-dialog.ui] *)
  clip_dialog_ui : dialog
}.

(** [pitivi.settings.get_dir]: the path it is given, once the directory is
    there (it creates a missing one; directories it creates are not files
    of the [filesystem] map). *)
Definition get_dir (path : string) : string := path.

(** ** Objects and the world *)

(** A surface of the renderer, kept as the call that painted it:
    [renderer.fill_surface(samples, width, height, max_peak)] is the C
    renderer of the host, which reads the samples it is given. *)
Record surface := fill_surface {
  surface_samples : list float;
  surface_width : Z;
  surface_height : Z;
  surface_max_peak : float
}.

(** The calls received by a cairo context. *)
Inductive cairo_op :=
| set_operator_OVER
| set_source_surface (s : surface) (x y : Z)
| paint
| set_source_rgb (r g b : float)
| set_line_width (w : float)
| move_to (x : float) (y : Z)
| line_to (x : float) (y : Z)
| stroke.

(** An [AudioPreviewer] instance.  [darea] refers to the drawing area
    ['waveform_area'] of the builder with that identity. *)
Record previewer := Previewer {
  darea : nat;
  __peaks : list float;
  __max_peak : float;
  __track : pyobj;
  __surface : option surface;
  __markers : list float
}.

(** The callables that the module passes as [callback]: the bound method
    [self.__display_track_analysis] is the only one. *)
Inductive callback := display_track_analysis_cb.

(** [user_data] is the tuple [(builder, filename)] or [None]; the builder
    of the tuple is a builder or [None]. *)
Abbreviation user_data := (option (option nat * string)).

(** A [threading.Thread] whose target is [analysis_worker], with the
    arguments of the request. *)
Record thread := Thread {
  thread_filename : string;
  thread_callback : option callback;
  thread_user_data : user_data;
  daemon : bool;
  started : bool
}.

(** The calls that leave the process, in the order they are made. *)
Inductive event :=
| EvHashFile (filename : string)
| EvOpen (path : string) (mode : open_mode)
| EvTrackFromFilename (filename : string)
| EvGetAnalysis
| EvCallback (cb : callback) (track : pyobj) (data : user_data).

(** The fields of the [EchonestExtension] instance. *)
Record extension := Extension {
  __asset_menu_item : option nat;
  __analysis_handler_id : Z;
  __audio_previewer : option nat;
  __current_builder : option nat;
  __current_track : pyobj
}.

(** [builders], [previewers] and [threads] are heaps: the identity of an
    object is its index. *)
Record world := World {
  files : filesystem;
  builders : list dialog;
  previewers : list previewer;
  threads : list thread;
  trace : list event;
  self : extension
}.

Definition set_files (f : filesystem -> filesystem) (w : world) : world :=
  World (f (files w)) (builders w) (previewers w) (threads w) (trace w) (self w).
Definition set_builders (f : list dialog -> list dialog) (w : world) : world :=
  World (files w) (f (builders w)) (previewers w) (threads w) (trace w) (self w).
Definition set_previewers (f : list previewer -> list previewer) (w : world) : world :=
  World (files w) (builders w) (f (previewers w)) (threads w) (trace w) (self w).
Definition set_threads (f : list thread -> list thread) (w : world) : world :=
  World (files w) (builders w) (previewers w) (f (threads w)) (trace w) (self w).
Definition set_trace (f : list event -> list event) (w : world) : world :=
  World (files w) (builders w) (previewers w) (threads w) (f (trace w)) (self w).
Definition set_self (f : extension -> extension) (w : world) : world :=
  World (files w) (builders w) (previewers w) (threads w) (trace w) (f (self w)).

(** Field updates of the widgets and of the instances. *)
Definition with_surface (s : option surface) (pv : previewer) : previewer :=
  Previewer (darea pv) (__peaks pv) (__max_peak pv) (__track pv) s (__markers pv).
Definition with_markers (markers : list float) (pv : previewer) : previewer :=
  Previewer (darea pv) (__peaks pv) (__max_peak pv) (__track pv) (__surface pv) markers.

Definition with_waveform_area (f : drawing_area -> drawing_area) (d : dialog) : dialog :=
  Dialog (metadata_list d) (f (waveform_area d)) (range_combo d) (select_type_combo d)
    (distribution_combo d) (step_spinner d) (beat_label d) (transient_for_gui d)
    (destroyed d).
Definition with_metadata_list (f : list string -> list string) (d : dialog) : dialog :=
  Dialog (f (metadata_list d)) (waveform_area d) (range_combo d) (select_type_combo d)
    (distribution_combo d) (step_spinner d) (beat_label d) (transient_for_gui d)
    (destroyed d).
Definition with_range_combo (f : combo -> combo) (d : dialog) : dialog :=
  Dialog (metadata_list d) (waveform_area d) (f (range_combo d)) (select_type_combo d)
    (distribution_combo d) (step_spinner d) (beat_label d) (transient_for_gui d)
    (destroyed d).
Definition with_select_type_combo (f : combo -> combo) (d : dialog) : dialog :=
  Dialog (metadata_list d) (waveform_area d) (range_combo d) (f (select_type_combo d))
    (distribution_combo d) (step_spinner d) (beat_label d) (transient_for_gui d)
    (destroyed d).
Definition with_distribution_combo (f : combo -> combo) (d : dialog) : dialog :=
  Dialog (metadata_list d) (waveform_area d) (range_combo d) (select_type_combo d)
    (f (distribution_combo d)) (step_spinner d) (beat_label d) (transient_for_gui d)
    (destroyed d).
Definition with_step_spinner (f : spinner -> spinner) (d : dialog) : dialog :=
  Dialog (metadata_list d) (waveform_area d) (range_combo d) (select_type_combo d)
    (distribution_combo d) (f (step_spinner d)) (beat_label d) (transient_for_gui d)
    (destroyed d).
Definition with_beat_label (text : string) (d : dialog) : dialog :=
  Dialog (metadata_list d) (waveform_area d) (range_combo d) (select_type_combo d)
    (distribution_combo d) (step_spinner d) text (transient_for_gui d) (destroyed d).
Definition with_transient_for_gui (d : dialog) : dialog :=
  Dialog (metadata_list d) (waveform_area d) (range_combo d) (select_type_combo d)
    (distribution_combo d) (step_spinner d) (beat_label d) true (destroyed d).
Definition with_destroyed (d : dialog) : dialog :=
  Dialog (metadata_list d) (waveform_area d) (range_combo d) (select_type_combo d)
    (distribution_combo d) (step_spinner d) (beat_label d) (transient_for_gui d) true.

(** [darea.connect('draw', handler)], [get_style_context().add_class(c)]
    and [queue_draw()] on a drawing area *)
Definition connect_draw (handler : nat) (a : drawing_area) : drawing_area :=
  DrawingArea (alloc_width a) (alloc_height a) (style_classes a)
    (draw_handlers a ++ [handler]) (queued_draws a).
Definition add_class (c : string) (a : drawing_area) : drawing_area :=
  DrawingArea (alloc_width a) (alloc_height a) (style_classes a ++ [c])
    (draw_handlers a) (queued_draws a).
Definition queue_draw (a : drawing_area) : drawing_area :=
  DrawingArea (alloc_width a) (alloc_height a) (style_classes a)
    (draw_handlers a) (S (queued_draws a)).

(** [set_sensitive(True)] on a combo box and on a spin button;
    [set_range(lo, hi)] on a spin button, which clamps its value. *)
Definition combo_set_sensitive (c : combo) : combo := Combo (active_id c) true.
Definition spinner_set_sensitive (s : spinner) : spinner :=
  Spinner (value s) (lower s) (upper s) true.
Definition set_range (lo hi : float) (s : spinner) : spinner :=
  Spinner (if PrimFloat.ltb (value s) lo then lo
           else if PrimFloat.ltb hi (value s) then hi else value s)
          lo hi (spinner_sensitive s).

(** ** The monad of methods: state and exceptions *)

Definition M (A : Type) : Type := world -> result A * world.

Definition ret {A} (a : A) : M A := fun w => (Return a, w).

Definition raise {A} (e : exn) : M A := fun w => (Raise e, w).

Definition bind {A B} (c : M A) (k : A -> M B) : M B :=
  fun w =>
    match c w with
    | (Return a, w') => k a w'
    | (Raise e, w') => (Raise e, w')
    end.

Definition lift {A} (r : result A) : M A := fun w => (r, w).

Definition get : M world := fun w => (Return w, w).

Definition modify (f : world -> world) : M unit := fun w => (Return tt, f w).

Definition log (ev : event) : M unit := modify (set_trace (fun tr => tr ++ [ev])).

(** [try: body / except IOError: handler]: what the body did before it
    raised stays done. *)
Definition try_except_IOError {A} (body handler : M A) : M A :=
  fun w =>
    match body w with
    | (Raise e, w') => if isinstance_IOError e then handler w' else (Raise e, w')
    | (Return a, w') => (Return a, w')
    end.

Declare Scope py_scope.
Delimit Scope py_scope with py.
Notation "'let*' x ':=' c 'in' k" := (bind c (fun x => k))
  (at level 10, x name, c at level 100, k at level 200) : py_scope.
Notation "c ;; k" := (bind c (fun _ => k))
  (at level 100, k at level 200, right associativity) : py_scope.
Local Open Scope py_scope.

(** A method called on an object that is not there ([None], or a widget
    that [get_object] did not find) raises [AttributeError]. *)
Definition deref {A} (o : option A) : M A :=
  match o with
  | Some a => ret a
  | None => raise AttributeError
  end.

Definition get_previewer (p : nat) : M previewer :=
  let* w := get in deref (previewers w !! p).

Definition get_dialog (b : nat) : M dialog :=
  let* w := get in deref (builders w !! b).

Definition update_previewer (p : nat) (f : previewer -> previewer) : M unit :=
  modify (set_previewers (alter f p)).

Definition update_dialog (b : nat) (f : dialog -> dialog) : M unit :=
  modify (set_builders (alter f b)).

Definition update_self (f : extension -> extension) : M unit :=
  modify (set_self f).

(** ** Calls to the host and the libraries, with their trace *)

Section Calls.
Context `{Host}.

Definition call_hash_file (filename : string) : M string :=
  log (EvHashFile filename) ;;
  lift (hash_file filename).

(** [with open(path, 'rb') as f]: the bytes that [f] reads. *)
Definition call_open_rb (path : string) : M (list Byte.byte) :=
  log (EvOpen path Rb) ;;
  let* w := get in lift (open_rb (files w) path).

(** [with open(path, 'wb') as f] *)
Definition call_open_wb (path : string) : M unit :=
  log (EvOpen path Wb) ;;
  let* w := get in
  let* fs := lift (open_wb (files w) path) in
  modify (set_files (fun _ => fs)).

(** [pickle.dump(obj, f)] for the file [f] opened at [path]; a dump
    that raises leaves in the file what it has written. *)
Definition call_pickle_dump (obj : pyobj) (path : string) : M unit :=
  match pickle_dump obj with
  | Return data => modify (set_files (fun fs => write_all fs path data))
  | Raise e =>
      modify (set_files (fun fs => write_all fs path (pickle_dump_written obj))) ;;
      raise e
  end.

Definition call_track_from_filename (filename : string) : M track :=
  log (EvTrackFromFilename filename) ;;
  lift (track_from_filename filename).

Definition call_get_analysis (t : track) : M track :=
  log EvGetAnalysis ;;
  lift (get_analysis t).

End Calls.

(** [max(v)]: only a list can be iterated among the values of [pyobj]. *)
Definition iter (v : pyobj) : result (list float) :=
  match v with
  | PyList l => Return l
  | _ => Raise TypeError
  end.

(** [track.beats], [track.duration] and [track.__dict__]: only a track has
    these attributes. *)
Definition getattr {A} (v : pyobj) (field : track -> A) : result A :=
  match v with
  | PyTrack t => Return (field t)
  | _ => Raise AttributeError
  end.

(** The comprehension [[m['start'] / t.duration for m in l]] *)
Definition ratios (t : pyobj) (l : list beat) : result (list float) :=
  comprehension
    (fun m => rbind (getattr t duration) (fun d => truediv (start m) d))
    l.

(** ** class AudioPreviewer *)

Module AudioPreviewer.
Section Methods.
Context `{Host}.

(** [AudioPreviewer(track, darea, clip_filename)]: the identity of the
    new instance. *)
Definition __init__ (track : pyobj) (darea : nat) (clip_filename : string) : M nat :=
  let* h := call_hash_file clip_filename in
  let filename := h +:+ ".wave" in
  let cache_dir := get_dir (path_join xdg_cache_home "waves") in
  let filename := path_join cache_dir filename in
  let* samples := call_open_rb filename in
  let* peaks := lift (pickle_load samples) in
  let* items := lift (iter peaks) in
  let* max_peak := lift (Py.max items) in
  let* w := get in
  let self := length (previewers w) in
  modify (set_previewers (fun ps =>
    ps ++ [Previewer darea items max_peak track None []])) ;;
  update_dialog darea (with_waveform_area (connect_draw self)) ;;
  ret self.

(** [draw_cb(self, darea, context)]: the context after the call.  The
    clip rectangle that the method reads first is not used.  The
    renderer gets [self.__peaks[:]], a copy: the list of the instance
    is the same after the call. *)
Definition draw_cb (self : nat) (darea : nat) (context : list cairo_op)
  : M (list cairo_op) :=
  let* d := get_dialog darea in
  let width := alloc_width (waveform_area d) in
  let height := alloc_height (waveform_area d) in
  let* pv := get_previewer self in
  let surface := fill_surface (__peaks pv) width height (__max_peak pv) in
  update_previewer self (with_surface (Some surface)) ;;
  let context := context ++ [set_operator_OVER] in
  let context := context ++ [set_source_surface surface 0 0] in
  let context := context ++ [paint] in
  let context := context ++ [set_source_rgb 1 1 1] in
  let context := context ++ [set_line_width 0.5] in
  let context :=
    fold_left (fun context marker =>
                 let x := PrimFloat.mul marker (float_of_int width) in
                 let context := context ++ [move_to x 0] in
                 context ++ [line_to x height])
              (__markers pv) context in
  ret (context ++ [stroke]).

Definition set_markers (self : nat) (markers : list float) : M unit :=
  update_previewer self (with_markers markers).

End Methods.
End AudioPreviewer.

(** ** class EchonestExtension

    [setup] and the two menu callbacks ([__add_clip_menu_item_cb],
    [__add_asset_menu_item_cb]) connect the methods below to the signals
    of the host; what they connect is called by the main loop, and is
    modelled as such. *)

Definition METADATA_BLACKLIST : list string :=
  ["pyechostring"; "codestring"; "synchstring";
   "analysis_url"; "rhythmstring"; "echoprintstring"; "meta";
   "_object_type"; "audio_md5"; "cache"; "code_version";
   "decoder_version"; "echoprint_version"; "id"; "md5";
   "rhythm_version"; "sample_md5"; "status"; "synch_version"].

Definition LIST_TYPED_METADATA : list string :=
  ["segments"; "tatums"; "beats"; "bars"; "sections"].

(** [name in names] *)
Definition contains (names : list string) (name : string) : bool :=
  existsb (String.eqb name) names.

(** [sorted(items)] on the items of a dictionary: by name. *)
Fixpoint insert_sorted (x : string * attr) (l : list (string * attr))
  : list (string * attr) :=
  match l with
  | [] => [x]
  | y :: ys => if String.leb (fst x) (fst y) then x :: l else y :: insert_sorted x ys
  end.

Definition sorted (items : list (string * attr)) : list (string * attr) :=
  fold_right insert_sorted [] items.

(** [len(value)] *)
Definition len (v : attr) : result nat :=
  match v with
  | AttrEvents l => Return (length l)
  | AttrStr s => Return (String.length s)
  | _ => Raise TypeError
  end.

(** [for x in l: body] *)
Fixpoint for_each {A} (l : list A) (body : A -> M unit) : M unit :=
  match l with
  | [] => ret tt
  | x :: xs => body x ;; for_each xs body
  end.

(** [builder.get_object(id_).set_sensitive(True)]: [None] when the dialog
    has no such widget to make sensitive. *)
Definition set_sensitive (id_ : string) (d : dialog) : option dialog :=
  if String.eqb id_ "range-combo" then Some (with_range_combo combo_set_sensitive d)
  else if String.eqb id_ "select-type-combo" then
    Some (with_select_type_combo combo_set_sensitive d)
  else if String.eqb id_ "distribution-combo" then
    Some (with_distribution_combo combo_set_sensitive d)
  else if String.eqb id_ "step-spinner" then
    Some (with_step_spinner spinner_set_sensitive d)
  else None.

Definition with_audio_previewer (p : option nat) (e : extension) : extension :=
  Extension (__asset_menu_item e) (__analysis_handler_id e) p (__current_builder e)
    (__current_track e).
Definition with_current_builder (b : option nat) (e : extension) : extension :=
  Extension (__asset_menu_item e) (__analysis_handler_id e) (__audio_previewer e) b
    (__current_track e).
Definition with_current_track (t : pyobj) (e : extension) : extension :=
  Extension (__asset_menu_item e) (__analysis_handler_id e) (__audio_previewer e)
    (__current_builder e) t.

Definition with_daemon (b : bool) (t : thread) : thread :=
  Thread (thread_filename t) (thread_callback t) (thread_user_data t) b (started t).
Definition with_started (t : thread) : thread :=
  Thread (thread_filename t) (thread_callback t) (thread_user_data t) (daemon t) true.

Module EchonestExtension.
Section Methods.
Context `{Host}.

(** The instance that [EchonestExtension(app)] builds. *)
Definition __init__ : extension := Extension None 0 None None PyNone.

Definition __load_from_cache (filename : string) : M pyobj :=
  let* h := call_hash_file filename in
  let filename := h +:+ ".analysis" in
  let cache_dir := get_dir (path_join xdg_cache_home "echonest") in
  let filename := path_join cache_dir filename in
  try_except_IOError
    (let* f := call_open_rb filename in
     lift (pickle_load f))
    (ret PyNone).

Definition __save_to_cache (filename : string) (track : pyobj) : M unit :=
  let* h := call_hash_file filename in
  let filename := h +:+ ".analysis" in
  let cache_dir := get_dir (path_join xdg_cache_home "echonest") in
  let filename := path_join cache_dir filename in
  call_open_wb filename ;;
  call_pickle_dump track filename.

(** The list box is kept as the texts of its labels, from top to
    bottom ([prepend] adds at the top, [insert(label, -1)] at the
    bottom); the alignment of a label and [show_all] change nothing of
    that. *)
Definition __fill_metadata_list (track : pyobj) : M unit :=
  let* w := get in
  let* listbox := deref (__current_builder (self w)) in
  get_dialog listbox ;;
  let* items := lift (getattr track __dict__) in
  for_each (sorted items) (fun '(name, value) =>
    if contains METADATA_BLACKLIST name then ret tt
    else
      let* text :=
        if contains LIST_TYPED_METADATA name then
          let* n := lift (len value) in
          ret ("Number of " +:+ name +:+ " : " +:+ pretty n)
        else ret (name +:+ " : " +:+ py_str value) in
      if contains LIST_TYPED_METADATA name then
        update_dialog listbox (with_metadata_list (fun rows => text :: rows))
      else
        update_dialog listbox (with_metadata_list (fun rows => rows ++ [text]))).

Definition __compute_markers : M unit :=
  let* w := get in
  let b := __current_builder (self w) in
  let t := __current_track (self w) in
  let* b := deref b in
  let* d := get_dialog b in
  let range_ := active_id (range_combo d) in
  let selection_type := active_id (select_type_combo d) in
  let distribution := active_id (distribution_combo d) in
  let* step := lift (int_of_float (value (step_spinner d))) in
  (if step =? 1 then update_dialog b (with_beat_label "beat")
   else update_dialog b (with_beat_label "beats")) ;;
  let* markers :=
    if bool_decide (range_ = Some "full") then
      let* w := get in
      let* all := lift (getattr (__current_track (self w)) beats) in
      let* every := lift (slice_from0_step all step) in
      lift (ratios t every)
    else ret [] in
  let* w := get in
  let* pv := deref (__audio_previewer (self w)) in
  AudioPreviewer.set_markers pv markers ;;
  let* p := get_previewer pv in
  update_dialog (darea p) (with_waveform_area queue_draw).

Definition _matching_changed_cb : M unit := __compute_markers.

Definition __prepare_beat_matcher (track : pyobj) (filename : string) : M unit :=
  let* w := get in
  let* darea := deref (__current_builder (self w)) in
  get_dialog darea ;;
  let* pv := AudioPreviewer.__init__ track darea filename in
  update_self (with_audio_previewer (Some pv)) ;;
  update_dialog darea (with_waveform_area (add_class "AudioUriSource")) ;;
  let* all := lift (getattr track beats) in
  let* markers := lift (ratios track all) in
  (let* w := get in
   let* pv := deref (__audio_previewer (self w)) in
   AudioPreviewer.set_markers pv markers) ;;
  for_each ["range-combo"; "select-type-combo"; "distribution-combo"; "step-spinner"]
    (fun id_ =>
       let* w := get in
       let* b := deref (__current_builder (self w)) in
       let* d := get_dialog b in
       let* d := deref (set_sensitive id_ d) in
       update_dialog b (fun _ => d)) ;;
  __compute_markers.

Definition __display_track_analysis (track : pyobj) (builder : option nat)
  (filename : string) : M unit :=
  let* w := get in
  if negb (bool_decide (builder = __current_builder (self w))) then ret tt
  else
    update_self (with_current_track track) ;;
    __fill_metadata_list track ;;
    __prepare_beat_matcher track filename.

(** [callback(track, *user_data)]: unpacking [None] raises before the
    call is made. *)
Definition call (cb : callback) (track : pyobj) (data : user_data) : M unit :=
  match data with
  | None => raise TypeError
  | Some (builder, filename) =>
      log (EvCallback cb track data) ;;
      match cb with
      | display_track_analysis_cb => __display_track_analysis track builder filename
      end
  end.

Definition analysis_worker (filename : string) (callback : option callback)
  (data : user_data) : M unit :=
  let* track := __load_from_cache filename in
  let* track :=
    if negb (truthy track) then
      let* track := call_track_from_filename filename in
      let* track := call_get_analysis track in
      __save_to_cache filename (PyTrack track) ;;
      ret (PyTrack track)
    else ret track in
  match callback with
  | Some cb => call cb track data
  | None => ret tt
  end.

(** The thread object is created (not a daemon, as the GUI thread that
    creates it), made a daemon, and started. *)
Definition __analyse_track (filename : string) (callback : option callback)
  (data : user_data) : M unit :=
  let* w := get in
  let t := length (threads w) in
  modify (set_threads (fun ts => ts ++ [Thread filename callback data false false])) ;;
  modify (set_threads (alter (with_daemon true) t)) ;;
  modify (set_threads (alter with_started t)).

(** What thread [t] does when the interpreter schedules it. *)
Definition thread_run (t : nat) : M unit :=
  let* w := get in
  match threads w !! t with
  | Some th =>
      if started th then
        analysis_worker (thread_filename th) (thread_callback th) (thread_user_data th)
      else ret tt
  | None => ret tt
  end.

(** [__clip_dialog_cb(widget, clip)] for a clip of URI [uri].
    [dialog_run] is what happens in [dialog.run()], the nested main loop:
    the handlers and threads that run until the dialog is answered
    ([connect_signals] has made [_matching_changed_cb] one of these
    handlers). *)
Definition __clip_dialog_cb (uri : string) (dialog_run : nat -> M unit) : M unit :=
  let* filename := lift (filename_from_uri uri) in
  let* w := get in
  let builder := length (builders w) in
  modify (set_builders (fun bs => bs ++ [clip_dialog_ui])) ;;
  update_self (with_current_builder (Some builder)) ;;
  (let* w := get in
   let* b := deref (__current_builder (self w)) in
   update_dialog b (with_step_spinner (set_range 1 100))) ;;
  let* w := get in
  let* dialog := deref (__current_builder (self w)) in
  update_dialog dialog with_transient_for_gui ;;
  (let* w := get in
   __analyse_track filename (Some display_track_analysis_cb)
     (Some (__current_builder (self w), filename))) ;;
  dialog_run dialog ;;
  update_self (with_current_builder None) ;;
  update_dialog dialog with_destroyed.

Definition __run_analysis_clicked_cb (asset_uri : string) : M unit :=
  let* filename := lift (filename_from_uri asset_uri) in
  __analyse_track filename None None.

End Methods.
End EchonestExtension.

(** ** A concrete host and concrete worlds, to run the module on *)

Module Demo.

Definition analysed : track :=
  Track 8 [Beat 0; Beat 2; Beat 4; Beat 6]
    [("title", AttrStr "Lament"); ("bars", AttrEvents [Beat 0; Beat 4]);
     ("md5", AttrStr "0f3a"); ("artist", AttrStr "Moondog")].

Definition uploaded : track := Track 8 [] [("title", AttrStr "Lament")].

Definition peaks : list float := [0.25; 0.75; 0.5]%float.

Import Byte.

(** A pickle of one byte: [N] for [None], [T] for the analysed track, [L]
    for the peaks, [E] for the empty list. *)
Definition host : Host := {|
  hash_file f :=
    if String.eqb f "/media/song.ogg" then Return "3b5d"
    else if String.eqb f "/media/offline.ogg" then Return "77aa"
    else Raise (IOError ENOENT);
  xdg_cache_home := "/home/u/.cache/pitivi";
  pickle_load data :=
    match data with
    | [] => Raise EOFError
    | [x4e] => Return PyNone
    | [x54] => Return (PyTrack analysed)
    | [x4c] => Return (PyList peaks)
    | [x45] => Return (PyList [])
    | _ => Raise UnpicklingError
    end;
  pickle_dump v :=
    match v with
    | PyNone => Return [x4e]
    | PyTrack _ => Return [x54]
    | PyList [] => Return [x45]
    | PyList _ => Return [x4c]
    | PyInt _ => Raise PicklingError
    end;
  pickle_dump_written _ := [];
  track_from_filename f :=
    if String.eqb f "/media/song.ogg" then Return uploaded
    else Raise (EchoNestAPIError 5);
  get_analysis _ := Return analysed;
  py_str v :=
    match v with
    | AttrStr s => s
    | AttrInt z => pretty z
    | AttrNone => "None"
    | AttrFloat _ => "8.0"
    | AttrEvents _ => "[...]"
    end;
  filename_from_uri uri := Return (String.substring 7 (String.length uri - 7) uri);
  clip_dialog_ui :=
    Dialog [] (DrawingArea 640 120 [] [] 0)
      (Combo (Some "full") false) (Combo (Some "beat") false)
      (Combo (Some "regular") false) (Spinner 0 0 10 false) "" false false
|}.

Definition analysis_file : string := "/home/u/.cache/pitivi/echonest/3b5d.analysis".
Definition wave_file : string := "/home/u/.cache/pitivi/waves/3b5d.wave".

Definition world_of (fs : filesystem) : world :=
  World fs [] [] [] [] EchonestExtension.__init__.

(** No cache file at all. *)
Definition fresh : world := world_of ∅.

(** The waveform of the song is cached, its analysis is not. *)
Definition with_wave : world := world_of {[ wave_file := Regular true [x4c] ]}.

(** Both caches are there. *)
Definition cached : world :=
  world_of (<[analysis_file := Regular true [x54]]>
              {[ wave_file := Regular true [x4c] ]}).

(** The analysis cache file is there, and the process may not read it. *)
Definition locked : world := world_of {[ analysis_file := Regular false [x54] ]}.

(** The analysis cache file holds bytes that are no pickle. *)
Definition garbled : world := world_of {[ analysis_file := Regular true [x00; x01] ]}.

(** The cached waveform has no peak. *)
Definition no_peak : world := world_of {[ wave_file := Regular true [x45] ]}.

(** The dialog of builder 0 is open on the song, whose analysis is
    displayed; the user has set the step to 2. *)
Definition song_dialog : dialog :=
  Dialog ["Number of beats : 4"; "title : Lament"]
    (DrawingArea 640 120 ["AudioUriSource"] [0%nat] 1)
    (Combo (Some "full") true) (Combo (Some "beat") true)
    (Combo (Some "regular") true) (Spinner 2 1 100 true) "beat" true false.

Definition song_previewer : previewer :=
  Previewer 0 peaks 0.75 (PyTrack analysed) None [0; 0.25; 0.5; 0.75]%float.

Definition song_thread : thread :=
  Thread "/media/song.ogg" (Some display_track_analysis_cb)
    (Some (Some 0%nat, "/media/song.ogg")) true true.

Definition dialog_open : world :=
  World {[ wave_file := Regular true [x4c] ]}
    [song_dialog] [song_previewer] [song_thread] []
    (Extension None 0 (Some 0%nat) (Some 0%nat) (PyTrack analysed)).

(** The dialog of builder 0 is open on a track of one beat whose
    duration is 0; the step is 2 and the range is the full one. *)
Definition instant : track := Track 0 [Beat 0] [("title", AttrStr "Tick")].

Definition dialog_open_on_an_instant : world :=
  World {[ wave_file := Regular true [x4c] ]}
    [song_dialog] [Previewer 0 peaks 0.75 (PyTrack instant) None [0.5%float]]
    [song_thread] []
    (Extension None 0 (Some 0%nat) (Some 0%nat) (PyTrack instant)).

(** The dialog of builder 0 is open on the song and waits for its
    analysis. *)
Definition dialog_waiting : world :=
  World {[ wave_file := Regular true [x4c] ]}
    [with_transient_for_gui
       (with_step_spinner (set_range 1 100) (clip_dialog_ui (Host := host)))]
    [] [song_thread] []
    (Extension None 0 None (Some 0%nat) PyNone).

(** The dialog of builder 0 has been closed before its analysis came. *)
Definition dialog_closed : world :=
  World {[ wave_file := Regular true [x4c] ]}
    [with_destroyed (with_transient_for_gui (clip_dialog_ui (Host := host)))]
    [] [song_thread] [] EchonestExtension.__init__.

End Demo.

(** ** The calls of the main loop *)

(** An exception that leaves a signal handler or a thread is reported and
    the main loop goes on: what the handler did before stays done. *)
Definition attempt {A} (c : M A) : M unit := fun w => (Return tt, (c w).2).

(** The calls made while a dialog may be open: a ['draw'] signal, a
    change of a combo or of the spinner, a thread that gets to run, a
    click on "Run echonest analysis"; and the calls of the module on
    itself. *)
Inductive handler_call :=
| Draw (self darea : nat) (context : list cairo_op)
| SetMarkers (self : nat) (markers : list float)
| MatchingChanged
| DisplayTrackAnalysis (track : pyobj) (builder : option nat) (filename : string)
| ThreadRun (t : nat)
| RunAnalysisClicked (asset_uri : string).

(** A call from the main loop: one of the above, or "Echonest dialog"
    on a clip, with the calls made until the dialog is answered. *)
Inductive main_loop_call :=
| Handler (c : handler_call)
| ClipDialog (uri : string) (during : list handler_call).

Section MainLoop.
Context `{Host}.

Definition perform_handler (c : handler_call) : M unit :=
  match c with
  | Draw self darea context => AudioPreviewer.draw_cb self darea context ;; ret tt
  | SetMarkers self markers => AudioPreviewer.set_markers self markers
  | MatchingChanged => EchonestExtension._matching_changed_cb
  | DisplayTrackAnalysis track builder filename =>
      EchonestExtension.__display_track_analysis track builder filename
  | ThreadRun t => EchonestExtension.thread_run t
  | RunAnalysisClicked asset_uri => EchonestExtension.__run_analysis_clicked_cb asset_uri
  end.

Definition perform (c : main_loop_call) : M unit :=
  match c with
  | Handler c => perform_handler c
  | ClipDialog uri during =>
      EchonestExtension.__clip_dialog_cb uri
        (fun _ => for_each during (fun c => attempt (perform_handler c)))
  end.

Definition perform_all (calls : list main_loop_call) : M unit :=
  for_each calls (fun c => attempt (perform c)).

(** [n] requests for the same analysis, one after the other. *)
Fixpoint requests (n : nat) (filename : string) (callback : option callback)
  (data : user_data) : M unit :=
  match n with
  | O => ret tt
  | S n => EchonestExtension.__analyse_track filename callback data ;;
           requests n filename callback data
  end.

(** What [analysis_worker] does once the cache has been read. *)
Definition after_load (filename : string) (callback : option callback)
  (data : user_data) (track : pyobj) : M unit :=
  let* track :=
    if negb (truthy track) then
      let* track := call_track_from_filename filename in
      let* track := call_get_analysis track in
      EchonestExtension.__save_to_cache filename (PyTrack track) ;;
      ret (PyTrack track)
    else ret track in
  match callback with
  | Some cb => EchonestExtension.call cb track data
  | None => ret tt
  end.

End MainLoop.

(** ** The vocabulary of the properties *)

(** The world after the calls [evs] have been traced. *)
Definition emit (evs : list event) : world -> world :=
  set_trace (fun tr => tr ++ evs).

Definition is_network (ev : event) : bool :=
  match ev with
  | EvTrackFromFilename _ | EvGetAnalysis => true
  | _ => false
  end.

Definition is_cache_write (ev : event) : bool :=
  match ev with
  | EvOpen _ Wb => true
  | _ => false
  end.

Definition is_callback (ev : event) : bool :=
  match ev with
  | EvCallback _ _ _ => true
  | _ => false
  end.

Definition benign (ev : event) : bool :=
  negb (is_network ev || is_cache_write ev || is_callback ev).

(** The cache files of a media file whose digest is [h], in the words of
    the specification: the digest and a suffix, in a subdirectory of the
    XDG cache directory. *)
Definition analysis_path `{Host} (h : string) : string :=
  path_join (path_join xdg_cache_home "echonest") (h +:+ ".analysis").

Definition wave_path `{Host} (h : string) : string :=
  path_join (path_join xdg_cache_home "waves") (h +:+ ".wave").

(** A computation preserves a relation on worlds when the world it
    leaves, returning or raising, is related to the one it started in. *)
Definition preserves (R : world -> world -> Prop) {A} (c : M A) : Prop :=
  forall w, R w (c w).2.

(** Staying in the process: the files are as they were, and what has
    been traced is neither a call to the service, nor the opening of a
    file for writing, nor a call of the callback. *)
Definition offline (w w' : world) : Prop :=
  files w' = files w
  /\ exists evs, trace w' = trace w ++ evs /\ forallb benign evs = true.

(** Keeping the peaks: a previewer that was there is there, with the
    peaks and the maximum it had. *)
Definition same_peaks (w w' : world) : Prop :=
  forall p pv,
    previewers w !! p = Some pv ->
    exists pv', previewers w' !! p = Some pv'
      /\ __peaks pv' = __peaks pv /\ __max_peak pv' = __max_peak pv.

(** Leaving the fields of the extension alone. *)
Definition same_self (w w' : world) : Prop := self w' = self w.

(** The segments that a sequence of calls paints on a cairo context:
    [move_to] starts a sub-path at a point, [line_to] adds the segment from
    the current point to it (and is a [move_to] without one), [stroke]
    paints the segments of the path and clears it. *)
Definition point : Type := float * Z.

Fixpoint stroked (ops : list cairo_op) (current : option point)
  (path : list (point * point)) : list (point * point) :=
  match ops with
  | [] => []
  | move_to x y :: ops => stroked ops (Some (x, y)) path
  | line_to x y :: ops =>
      match current with
      | Some p => stroked ops (Some (x, y)) (path ++ [(p, (x, y))])
      | None => stroked ops (Some (x, y)) path
      end
  | stroke :: ops => path ++ stroked ops None []
  | _ :: ops => stroked ops current path
  end.

(** The vertical line of a marker on an area: at the marker times the
    width, from the top to the bottom. *)
Definition marker_line (width height : Z) (marker : float) : point * point :=
  let x := PrimFloat.mul marker (float_of_int width) in ((x, 0), (x, height)).

(** The calls that [draw_cb] makes on the context of an area of that
    width and height. *)
Definition drawing (pv : previewer) (width height : Z) : list cairo_op :=
  [set_operator_OVER;
   set_source_surface (fill_surface (__peaks pv) width height (__max_peak pv)) 0 0;
   paint; set_source_rgb 1 1 1; set_line_width 0.5]
  ++ flat_map (fun marker =>
                 [move_to (PrimFloat.mul marker (float_of_int width)) 0;
                  line_to (PrimFloat.mul marker (float_of_int width)) height])
       (__markers pv)
  ++ [stroke].

(** [marker] is the quotient of the start of a beat of [t] by the
    duration of [t]. *)
Definition is_beat_ratio (t : track) (marker : float) : Prop :=
  exists beat, beat ∈ beats t /\ marker = PrimFloat.div (start beat) (duration t).

(** ** More vocabulary: what the user sees *)

(** Leaving the GUI alone: the fields of the extension, the dialogs, the
    previewers and the threads are as they were. *)
Definition same_gui (w w' : world) : Prop :=
  self w' = self w /\ builders w' = builders w
  /\ previewers w' = previewers w /\ threads w' = threads w.

(** The attributes of a track that get a row in the metadata list, in
    the order of the loop of [__fill_metadata_list]. *)
Definition listed (t : track) : list (string * attr) :=
  filter (fun item => contains METADATA_BLACKLIST item.1 = false) (sorted (__dict__ t)).

(** The row of an attribute that holds a list, and the row of another
    attribute. *)
Definition count_row (name : string) (n : nat) : string :=
  "Number of " +:+ name +:+ " : " +:+ pretty n.

Definition value_row `{Host} (item : string * attr) : string :=
  item.1 +:+ " : " +:+ py_str item.2.

(** The rows of the attributes that hold a list, in the order of their
    names; [len] of a value that has no length raises. *)
Definition count_rows (t : track) : result (list string) :=
  comprehension (fun item => rbind (len item.2) (fun n => Return (count_row item.1 n)))
    (filter (fun item => contains LIST_TYPED_METADATA item.1 = true) (listed t)).

(** The rows of the other attributes, in the order of their names. *)
Definition value_rows `{Host} (t : track) : list string :=
  map value_row
    (filter (fun item => contains LIST_TYPED_METADATA item.1 = false) (listed t)).

(** Two dialogs that differ at most by the rows of the metadata list,
    and two that differ at most by the label of the step. *)
Definition same_but_rows (d d' : dialog) : Prop :=
  with_metadata_list (fun _ => []) d' = with_metadata_list (fun _ => []) d.

Definition same_but_label (d d' : dialog) : Prop :=
  with_beat_label "" d' = with_beat_label "" d.

(** A world that differs from another at most by rows of metadata lists
    and by the current track: no previewer was built, no widget was made
    sensitive, no file was written. *)
Definition rows_only (w w' : world) : Prop :=
  files w' = files w /\ previewers w' = previewers w /\ threads w' = threads w
  /\ __audio_previewer (self w') = __audio_previewer (self w)
  /\ __current_builder (self w') = __current_builder (self w)
  /\ Forall2 same_but_rows (builders w) (builders w').

(** A world that differs from another at most by labels of the step. *)
Definition label_only (w w' : world) : Prop :=
  files w' = files w /\ previewers w' = previewers w /\ threads w' = threads w
  /\ self w' = self w /\ trace w' = trace w
  /\ Forall2 same_but_label (builders w) (builders w').

(** What the handlers that run while a dialog is open keep: the dialogs
    are as many, and the threads that were started are still there. *)
Definition dialog_frame (w w' : world) : Prop :=
  length (builders w') = length (builders w) /\ threads w `prefix_of` threads w'.

(** The dialog is ready for beat matching with previewer [p]: its four
    controls are sensitive, and its waveform area has the style class of
    audio sources and [draw_cb] of [p] among the handlers of ['draw']. *)
Definition matcher_ready (p : nat) (d : dialog) : Prop :=
  combo_sensitive (range_combo d) = true
  /\ combo_sensitive (select_type_combo d) = true
  /\ combo_sensitive (distribution_combo d) = true
  /\ spinner_sensitive (step_spinner d) = true
  /\ "AudioUriSource" ∈ style_classes (waveform_area d)
  /\ p ∈ draw_handlers (waveform_area d).

(** Keeping a property of the dialogs: a dialog that had it is there and
    has it. *)
Definition keeps (P : dialog -> Prop) (w w' : world) : Prop :=
  forall b d, builders w !! b = Some d -> P d ->
    exists d', builders w' !! b = Some d' /\ P d'.

(** The analysis cache of a media file is warm in a file system when its
    cache file unpickles to an object that is true. *)
Definition warm `{Host} (fs : filesystem) (filename : string) : Prop :=
  exists h cached,
    hash_file filename = Return h
    /\ rbind (open_rb fs (analysis_path h)) pickle_load = Return cached
    /\ truthy cached = true.

(** ** More concrete worlds *)

Module Scenes.

Import Byte.

(** The dialog of a clip as [__clip_dialog_cb] leaves it before
    [dialog.run()]. *)
Definition new_dialog : dialog :=
  with_transient_for_gui
    (with_step_spinner (set_range 1 100) (clip_dialog_ui (Host := Demo.host))).

(** The dialog of builder 0 is open on the song; the analysis cache
    file of the song holds the pickle of a list of peaks. *)
Definition peaks_as_analysis : world :=
  World (<[Demo.analysis_file := Regular true [x4c]]>
           {[ Demo.wave_file := Regular true [x4c] ]})
    [new_dialog] [] [Demo.song_thread] []
    (Extension None 0 None (Some 0%nat) PyNone).

(** The dialog of builder 0 is open on the song, whose analysis is
    cached and whose waveform is not. *)
Definition no_wave : world :=
  World {[ Demo.analysis_file := Regular true [x54] ]}
    [new_dialog] [] [Demo.song_thread] []
    (Extension None 0 None (Some 0%nat) PyNone).

(** The dialog of builder 0 is open on the song, of which nothing is
    cached. *)
Definition nothing_cached : world :=
  World ∅ [new_dialog] [] [Demo.song_thread] []
    (Extension None 0 None (Some 0%nat) PyNone).

(** A host whose pickler cannot dump a track (an attribute of the
    track is not picklable): it raises once the two bytes of the
    protocol header are written. *)
Definition tracks_not_picklable : Host := {|
  hash_file := hash_file (Host := Demo.host);
  xdg_cache_home := xdg_cache_home (Host := Demo.host);
  pickle_load := pickle_load (Host := Demo.host);
  pickle_dump v :=
    match v with
    | PyTrack _ => Raise PicklingError
    | _ => pickle_dump (Host := Demo.host) v
    end;
  pickle_dump_written v :=
    match v with
    | PyTrack _ => [x80; x03]
    | _ => []
    end;
  track_from_filename := track_from_filename (Host := Demo.host);
  get_analysis := get_analysis (Host := Demo.host);
  py_str := py_str (Host := Demo.host);
  filename_from_uri := filename_from_uri (Host := Demo.host);
  clip_dialog_ui := clip_dialog_ui (Host := Demo.host)
|}.

End Scenes.

(** * Properties *)

(** ** The built-ins on examples *)

Example truediv_quarter : truediv 1 4 = Return 0.25%float.
Proof. reflexivity. Qed.

Example truediv_by_zero : truediv 1 (-0) = Raise ZeroDivisionError.
Proof. reflexivity. Qed.

Example int_of_float_truncates :
  int_of_float 2.75 = Return 2 /\ int_of_float (-2.75) = Return (-2)
  /\ int_of_float 100 = Return 100 /\ int_of_float 0.5 = Return 0.
Proof. vm_compute. auto. Qed.

Example max_of_peaks : Py.max [0.25; 0.75; 0.5]%float = Return 0.75%float.
Proof. reflexivity. Qed.

Example slice_step_2 : slice_from0_step [1; 2; 3; 4; 5] 2 = Return [1; 3; 5].
Proof. reflexivity. Qed.

Example slice_step_3 : slice_from0_step [1; 2; 3; 4; 5; 6; 7] 3 = Return [1; 4; 7].
Proof. reflexivity. Qed.

Example slice_step_negative : slice_from0_step [1; 2; 3] (-1) = Return [1].
Proof. reflexivity. Qed.

Example path_join_cases :
  path_join "/home/u/.cache/pitivi" "echonest" = "/home/u/.cache/pitivi/echonest"
  /\ path_join "/c/" "x" = "/c/x" /\ path_join "/c" "/abs" = "/abs".
Proof. vm_compute. auto. Qed.

(** ** The module on examples *)

(** A cache miss: the service is called and the cache file written. *)
Example worker_on_a_miss :
  trace (EchonestExtension.analysis_worker (H := Demo.host) "/media/song.ogg"
           None None Demo.fresh).2
  = [EvHashFile "/media/song.ogg"; EvOpen Demo.analysis_file Rb;
     EvTrackFromFilename "/media/song.ogg"; EvGetAnalysis;
     EvHashFile "/media/song.ogg"; EvOpen Demo.analysis_file Wb].
Proof. reflexivity. Qed.

(** A cache hit: the cache file is read, and that is all. *)
Example worker_on_a_hit :
  trace (EchonestExtension.analysis_worker (H := Demo.host) "/media/song.ogg"
           None None Demo.cached).2
  = [EvHashFile "/media/song.ogg"; EvOpen Demo.analysis_file Rb].
Proof. reflexivity. Qed.

(** The dialog on a song, answered once the analysis is displayed. *)
Example dialog_with_analysis :
  let w := (EchonestExtension.__clip_dialog_cb (H := Demo.host) "file:///media/song.ogg"
              (fun _ => EchonestExtension.thread_run (H := Demo.host) 0)
              Demo.with_wave).2 in
  metadata_list <$> builders w !! 0%nat
  = Some ["Number of beats : 4"; "Number of bars : 2"; "artist : Moondog";
          "duration : 8.0"; "title : Lament"]
  /\ __markers <$> previewers w !! 0%nat = Some [0; 0.25; 0.5; 0.75]%float
  /\ __current_builder (self w) = None.
Proof. vm_compute. auto. Qed.

(** ** The trace *)

Lemma emit_emit evs1 evs2 w : emit evs2 (emit evs1 w) = emit (evs1 ++ evs2) w.
Proof. destruct w; unfold emit, set_trace; simpl. by rewrite app_assoc. Qed.

Lemma trace_emit evs w : trace (emit evs w) = trace w ++ evs.
Proof. reflexivity. Qed.

Lemma log_run ev w : log ev w = (Return tt, emit [ev] w).
Proof. reflexivity. Qed.

Lemma benign_offline evs :
  forallb benign evs = true ->
  existsb is_network evs = false /\ existsb is_cache_write evs = false
  /\ existsb is_callback evs = false.
Proof.
  induction evs as [|ev evs IH]; simpl; [done|].
  intros [Hev Hevs]%andb_prop. destruct (IH Hevs) as (-> & -> & ->).
  unfold benign in Hev. apply negb_true_iff in Hev.
  destruct (is_network ev), (is_cache_write ev), (is_callback ev); done.
Qed.

(** ** Running a method step by step *)

Lemma run_bind_return {A B} (c : M A) (k : A -> M B) w a w1 :
  c w = (Return a, w1) -> bind c k w = k a w1.
Proof. unfold bind. by intros ->. Qed.

(** A computation whose first action raises, raises. *)
Lemma run_bind_raise {A B} (c : M A) (k : A -> M B) w e w1 :
  c w = (Raise e, w1) -> bind c k w = (Raise e, w1).
Proof. unfold bind. by intros ->. Qed.

Lemma get_dialog_run w b d : builders w !! b = Some d -> get_dialog b w = (Return d, w).
Proof. unfold get_dialog, bind, get. by intros ->. Qed.

Lemma get_previewer_run w p pv :
  previewers w !! p = Some pv -> get_previewer p w = (Return pv, w).
Proof. unfold get_previewer, bind, get. by intros ->. Qed.

(** The steps of a computation whose first action returns by
    computation. *)
Ltac run :=
  repeat (erewrite run_bind_return by reflexivity; cbv beta).

(** ** What a method that returned went through *)

Lemma bind_returns {A B} (c : M A) (k : A -> M B) w b w' :
  bind c k w = (Return b, w') ->
  exists a w1, c w = (Return a, w1) /\ k a w1 = (Return b, w').
Proof.
  unfold bind. destruct (c w) as [[a|e] w1]; [|done]. intros Hk. by exists a, w1.
Qed.

Lemma deref_returns {A} (o : option A) w a w' :
  deref o w = (Return a, w') -> o = Some a /\ w' = w.
Proof. destruct o; [|done]. by intros [= <- <-]. Qed.

Lemma lift_returns {A} (r : result A) w a w' :
  lift r w = (Return a, w') -> r = Return a /\ w' = w.
Proof. by intros [= <- <-]. Qed.

Lemma get_dialog_returns b w d w' :
  get_dialog b w = (Return d, w') -> builders w !! b = Some d /\ w' = w.
Proof.
  unfold get_dialog. intros (w0 & w1 & [= <- <-] & Hd)%bind_returns.
  by apply deref_returns in Hd.
Qed.

Lemma get_previewer_returns p w pv w' :
  get_previewer p w = (Return pv, w') -> previewers w !! p = Some pv /\ w' = w.
Proof.
  unfold get_previewer. intros (w0 & w1 & [= <- <-] & Hd)%bind_returns.
  by apply deref_returns in Hd.
Qed.

(** The first action of the computation in [H] returned: its value is
    named, with what is known of it, and [H] becomes the rest. *)
Tactic Notation "returned" hyp(H) "as" simple_intropattern(a) ident(Ha) :=
  let w := fresh "w" in
  apply bind_returns in H as (a & w & Ha & H);
  first
    [ apply deref_returns in Ha as [Ha ->]
    | apply lift_returns in Ha as [Ha ->]
    | apply get_dialog_returns in Ha as [Ha ->]
    | apply get_previewer_returns in Ha as [Ha ->] ].

(** The same for [get], which returns the world. *)
Tactic Notation "returned" hyp(H) :=
  let a := fresh "a" in
  let w := fresh "w" in
  let Ha := fresh "Ha" in
  apply bind_returns in H as (a & w & Ha & H);
  injection Ha as <- <-.

(** ** Relations that the methods preserve *)

Section Preserves.
Variable R : world -> world -> Prop.
Hypothesis R_refl : forall w, R w w.
Hypothesis R_trans : forall w1 w2 w3, R w1 w2 -> R w2 w3 -> R w1 w3.

Lemma preserves_ret {A} (a : A) : preserves R (ret a).
Proof. intros w. apply R_refl. Qed.

Lemma preserves_raise {A} e : preserves R (@raise A e).
Proof. intros w. apply R_refl. Qed.

Lemma preserves_lift {A} (r : result A) : preserves R (lift r).
Proof. intros w. apply R_refl. Qed.

Lemma preserves_get : preserves R get.
Proof. intros w. apply R_refl. Qed.

Lemma preserves_deref {A} (o : option A) : preserves R (deref o).
Proof. destruct o; intros w; apply R_refl. Qed.

Lemma preserves_bind {A B} (c : M A) (k : A -> M B) :
  preserves R c -> (forall a, preserves R (k a)) -> preserves R (bind c k).
Proof.
  intros Hc Hk w. unfold bind. specialize (Hc w).
  destruct (c w) as [[a|e] w1]; cbn [snd] in *; [|done].
  eapply R_trans; [exact Hc|apply Hk].
Qed.

Lemma preserves_for_each {A} (l : list A) (body : A -> M unit) :
  (forall x, preserves R (body x)) -> preserves R (for_each l body).
Proof.
  intros Hbody. induction l as [|x xs IH]; cbn [for_each].
  - apply preserves_ret.
  - by apply preserves_bind.
Qed.

Lemma preserves_attempt {A} (c : M A) : preserves R c -> preserves R (attempt c).
Proof. intros Hc w. apply Hc. Qed.

Lemma preserves_try {A} (body handler : M A) :
  preserves R body -> preserves R handler ->
  preserves R (try_except_IOError body handler).
Proof.
  intros Hbody Hhandler w. unfold try_except_IOError. specialize (Hbody w).
  destruct (body w) as [[a|e] w1]; cbn [snd] in *; [done|].
  destruct (isinstance_IOError e); [|done].
  eapply R_trans; [exact Hbody|apply Hhandler].
Qed.

End Preserves.

(** One step of the proof that a method preserves a relation, given that
    the relation is reflexive and transitive; [leaf] is for the updates
    of the world. *)
Ltac preserves_step refl trans leaf :=
  lazymatch goal with
  | |- preserves _ (ret _) => apply (preserves_ret _ refl)
  | |- preserves _ (raise _) => apply (preserves_raise _ refl)
  | |- preserves _ (lift _) => apply (preserves_lift _ refl)
  | |- preserves _ get => apply (preserves_get _ refl)
  | |- preserves _ (deref _) => apply (preserves_deref _ refl)
  | |- preserves _ (attempt _) => apply preserves_attempt
  | |- preserves _ (try_except_IOError _ _) => apply (preserves_try _ trans)
  | |- preserves _ (for_each _ _) => apply (preserves_for_each _ refl trans); intros
  | |- preserves _ (bind _ _) => apply (preserves_bind _ trans); [|intros]
  | |- preserves _ (if ?b then _ else _) => destruct b
  | |- preserves _ (match ?x with _ => _ end) => destruct x
  | |- preserves _ _ => leaf
  end.

Lemma offline_refl w : offline w w.
Proof. split; [done|]. exists []. by rewrite app_nil_r. Qed.

Lemma offline_trans w1 w2 w3 : offline w1 w2 -> offline w2 w3 -> offline w1 w3.
Proof.
  intros (Hf & evs & Ht & Hb) (Hf' & evs' & Ht' & Hb').
  split; [congruence|]. exists (evs ++ evs'). split.
  - by rewrite Ht', Ht, app_assoc.
  - rewrite forallb_app. by rewrite Hb, Hb'.
Qed.

Lemma offline_modify f :
  (forall w, files (f w) = files w) -> (forall w, trace (f w) = trace w) ->
  preserves offline (modify f).
Proof.
  intros Hf Ht w. split; [apply Hf|]. exists []. cbn. by rewrite Ht, app_nil_r.
Qed.

Lemma offline_log ev : benign ev = true -> preserves offline (log ev).
Proof.
  intros Hev w. split; [done|]. exists [ev]. split; [done|]. cbn. by rewrite Hev.
Qed.

Ltac solve_offline :=
  repeat preserves_step offline_refl offline_trans
    ltac:(first [ apply offline_log; reflexivity
                | apply offline_modify; intros []; reflexivity ]).

Lemma same_peaks_refl w : same_peaks w w.
Proof. intros p pv Hpv. by exists pv. Qed.

Lemma same_peaks_trans w1 w2 w3 : same_peaks w1 w2 -> same_peaks w2 w3 -> same_peaks w1 w3.
Proof.
  intros H12 H23 p pv Hpv.
  destruct (H12 p pv Hpv) as (pv2 & Hpv2 & Hpeaks2 & Hmax2).
  destruct (H23 p pv2 Hpv2) as (pv3 & Hpv3 & Hpeaks3 & Hmax3).
  exists pv3. repeat split; congruence.
Qed.

Lemma same_peaks_modify f :
  (forall w, previewers (f w) = previewers w) -> preserves same_peaks (modify f).
Proof. intros Hf w p pv Hpv. cbn. rewrite Hf. by exists pv. Qed.

(** The updates of a previewer change neither field. *)
Lemma same_peaks_update_previewer p f :
  (forall pv, __peaks (f pv) = __peaks pv /\ __max_peak (f pv) = __max_peak pv) ->
  preserves same_peaks (update_previewer p f).
Proof.
  intros Hf w q pv Hpv. cbn. rewrite list_lookup_alter.
  destruct (decide (p = q)) as [->|_]; [|by exists pv].
  rewrite Hpv. exists (f pv). split; [done|]. apply Hf.
Qed.

(** A new previewer takes the next identity. *)
Lemma same_peaks_new pv0 :
  preserves same_peaks (modify (set_previewers (fun ps => ps ++ [pv0]))).
Proof.
  intros w p pv Hpv. cbn. exists pv. split; [|done].
  rewrite lookup_app_l; [done|]. by eapply lookup_lt_Some.
Qed.

Ltac solve_same_peaks :=
  repeat preserves_step same_peaks_refl same_peaks_trans
    ltac:(first [ apply same_peaks_new
                | apply same_peaks_update_previewer; intros []; split; reflexivity
                | apply same_peaks_modify; intros []; reflexivity ]).

Lemma same_self_refl w : same_self w w.
Proof. reflexivity. Qed.

Lemma same_self_trans w1 w2 w3 : same_self w1 w2 -> same_self w2 w3 -> same_self w1 w3.
Proof. unfold same_self. congruence. Qed.

Lemma same_self_modify f :
  (forall w, self (f w) = self w) -> preserves same_self (modify f).
Proof. intros Hf w. apply Hf. Qed.

Ltac solve_same_self :=
  repeat preserves_step same_self_refl same_self_trans
    ltac:(apply same_self_modify; intros []; reflexivity).

Section MethodsPreserve.
Context `{Host}.

Lemma offline_init track darea filename :
  preserves offline (AudioPreviewer.__init__ track darea filename).
Proof.
  unfold AudioPreviewer.__init__, call_hash_file, call_open_rb, update_dialog.
  solve_offline.
Qed.

Lemma offline_compute_markers : preserves offline EchonestExtension.__compute_markers.
Proof.
  unfold EchonestExtension.__compute_markers, get_dialog, get_previewer,
    update_dialog, AudioPreviewer.set_markers, update_previewer.
  solve_offline.
Qed.

Lemma offline_display_track_analysis track builder filename :
  preserves offline
    (EchonestExtension.__display_track_analysis track builder filename).
Proof.
  pose proof offline_init. pose proof offline_compute_markers.
  unfold EchonestExtension.__display_track_analysis,
    EchonestExtension.__fill_metadata_list,
    EchonestExtension.__prepare_beat_matcher, get_dialog, update_dialog,
    update_self, AudioPreviewer.set_markers, update_previewer.
  solve_offline; auto.
Qed.

Lemma same_peaks_init track darea filename :
  preserves same_peaks (AudioPreviewer.__init__ track darea filename).
Proof.
  unfold AudioPreviewer.__init__, call_hash_file, call_open_rb, log, update_dialog.
  solve_same_peaks.
Qed.

Lemma same_peaks_draw_cb self darea context :
  preserves same_peaks (AudioPreviewer.draw_cb self darea context).
Proof. unfold AudioPreviewer.draw_cb, get_dialog, get_previewer. solve_same_peaks. Qed.

Lemma same_peaks_compute_markers :
  preserves same_peaks EchonestExtension.__compute_markers.
Proof.
  unfold EchonestExtension.__compute_markers, get_dialog, get_previewer,
    update_dialog, AudioPreviewer.set_markers.
  solve_same_peaks.
Qed.

Lemma same_peaks_display_track_analysis track builder filename :
  preserves same_peaks
    (EchonestExtension.__display_track_analysis track builder filename).
Proof.
  pose proof same_peaks_init. pose proof same_peaks_compute_markers.
  unfold EchonestExtension.__display_track_analysis,
    EchonestExtension.__fill_metadata_list,
    EchonestExtension.__prepare_beat_matcher, get_dialog, update_dialog,
    update_self, AudioPreviewer.set_markers.
  solve_same_peaks; auto.
Qed.

Lemma same_peaks_analysis_worker filename callback data :
  preserves same_peaks (EchonestExtension.analysis_worker filename callback data).
Proof.
  pose proof same_peaks_display_track_analysis.
  unfold EchonestExtension.analysis_worker, EchonestExtension.__load_from_cache,
    EchonestExtension.__save_to_cache, EchonestExtension.call,
    call_hash_file, call_open_rb, call_open_wb, call_pickle_dump,
    call_track_from_filename, call_get_analysis, log.
  solve_same_peaks; auto.
Qed.

Lemma same_peaks_analyse_track filename callback data :
  preserves same_peaks (EchonestExtension.__analyse_track filename callback data).
Proof. unfold EchonestExtension.__analyse_track. solve_same_peaks. Qed.

Lemma same_peaks_perform_handler c : preserves same_peaks (perform_handler c).
Proof.
  pose proof same_peaks_draw_cb. pose proof same_peaks_compute_markers.
  pose proof same_peaks_display_track_analysis.
  pose proof same_peaks_analysis_worker. pose proof same_peaks_analyse_track.
  destruct c; cbn [perform_handler];
    unfold EchonestExtension._matching_changed_cb, EchonestExtension.thread_run,
      EchonestExtension.__run_analysis_clicked_cb, AudioPreviewer.set_markers;
    solve_same_peaks; auto.
Qed.

Lemma same_peaks_perform c : preserves same_peaks (perform c).
Proof.
  pose proof same_peaks_perform_handler. pose proof same_peaks_analyse_track.
  destruct c as [c|uri during]; cbn [perform]; [done|].
  unfold EchonestExtension.__clip_dialog_cb, update_self, update_dialog.
  solve_same_peaks; auto.
Qed.

Lemma same_peaks_perform_all calls : preserves same_peaks (perform_all calls).
Proof.
  apply (preserves_for_each _ same_peaks_refl same_peaks_trans).
  intros c. apply preserves_attempt, same_peaks_perform.
Qed.

Lemma same_self_init track darea filename :
  preserves same_self (AudioPreviewer.__init__ track darea filename).
Proof.
  unfold AudioPreviewer.__init__, call_hash_file, call_open_rb, log, update_dialog.
  solve_same_self.
Qed.

End MethodsPreserve.

(** ** The cache files *)

Lemma open_wb_then_read (fs fs' : filesystem) path payload :
  open_wb fs path = Return fs' ->
  open_rb (write_all fs' path payload) path = Return payload.
Proof.
  unfold open_wb, open_rb, write_all.
  destruct (fs !! path) as [[[] ?|]|]; intros [= <-];
    rewrite lookup_insert_eq, lookup_insert_eq; done.
Qed.

Section Cache.
Context `{Host}.

(** What [__load_from_cache] computes, case by case. *)
Lemma load_from_cache_run filename w :
  EchonestExtension.__load_from_cache filename w =
    match hash_file filename with
    | Raise e => (Raise e, emit [EvHashFile filename] w)
    | Return h =>
        let w1 := emit [EvHashFile filename; EvOpen (analysis_path h) Rb] w in
        match rbind (open_rb (files w) (analysis_path h)) pickle_load with
        | Return v => (Return v, w1)
        | Raise e => if isinstance_IOError e then (Return PyNone, w1) else (Raise e, w1)
        end
    end.
Proof.
  unfold EchonestExtension.__load_from_cache, call_hash_file, bind at 1 2.
  rewrite log_run. unfold lift at 1.
  destruct (hash_file filename) as [h|e]; [|done].
  unfold try_except_IOError, call_open_rb, bind, get, get_dir.
  rewrite log_run, emit_emit. simpl. fold (analysis_path h).
  unfold lift.
  destruct (open_rb (files w) (analysis_path h)) as [payload|e]; simpl.
  - destruct (pickle_load payload) as [v|e]; simpl; [done|].
    by destruct (isinstance_IOError e).
  - by destruct (isinstance_IOError e).
Qed.

Lemma save_to_cache_run filename track w :
  EchonestExtension.__save_to_cache filename track w =
    match hash_file filename with
    | Raise e => (Raise e, emit [EvHashFile filename] w)
    | Return h =>
        let w1 := emit [EvHashFile filename; EvOpen (analysis_path h) Wb] w in
        match open_wb (files w) (analysis_path h) with
        | Raise e => (Raise e, w1)
        | Return fs =>
            match pickle_dump track with
            | Raise e =>
                (Raise e,
                 set_files
                   (fun _ => write_all fs (analysis_path h) (pickle_dump_written track))
                   w1)
            | Return payload =>
                (Return tt,
                 set_files (fun _ => write_all fs (analysis_path h) payload) w1)
            end
        end
    end.
Proof.
  unfold EchonestExtension.__save_to_cache, call_hash_file, bind at 1 2.
  rewrite log_run. unfold lift at 1.
  destruct (hash_file filename) as [h|e]; [|done].
  unfold call_open_wb, call_pickle_dump, bind, get, get_dir.
  rewrite log_run, emit_emit. simpl. fold (analysis_path h).
  unfold lift.
  destruct (open_wb (files w) (analysis_path h)) as [fs|e]; simpl; [|done].
  destruct (pickle_dump track) as [payload|e]; simpl; by destruct w.
Qed.

Lemma load_from_cache_returns filename w cached w1 :
  EchonestExtension.__load_from_cache filename w = (Return cached, w1) ->
  exists h, hash_file filename = Return h
    /\ w1 = emit [EvHashFile filename; EvOpen (analysis_path h) Rb] w.
Proof.
  rewrite load_from_cache_run.
  destruct (hash_file filename) as [h|e]; [|done].
  intros Hrun. exists h. split; [done|]. simpl in Hrun.
  destruct (rbind _ _) as [v|e]; [congruence|].
  destruct (isinstance_IOError e); congruence.
Qed.

Lemma load_from_cache_raises filename w e w1 :
  EchonestExtension.__load_from_cache filename w = (Raise e, w1) ->
  exists evs, w1 = emit (EvHashFile filename :: evs) w.
Proof.
  rewrite load_from_cache_run.
  destruct (hash_file filename) as [h|e']; [|intros [= _ <-]; by exists []].
  simpl. intros Hrun. exists [EvOpen (analysis_path h) Rb].
  destruct (rbind _ _) as [v|e'']; [congruence|].
  destruct (isinstance_IOError e''); congruence.
Qed.

End Cache.

(** ** The worker *)

Section Worker.
Context `{Host}.

(** The callback, when there is one, stays in the process but for its
    own entry in the trace. *)
Lemma callback_offline (callback : option callback) loaded data w :
  let c := match callback with
           | Some cb => EchonestExtension.call cb loaded data
           | None => ret tt
           end in
  files (c w).2 = files w
  /\ exists evs, trace (c w).2 = trace w ++ evs
       /\ existsb is_network evs = false /\ existsb is_cache_write evs = false.
Proof.
  destruct callback as [[]|]; simpl.
  - destruct data as [[builder filename]|]; simpl.
    + unfold bind. rewrite log_run.
      destruct (offline_display_track_analysis loaded builder filename
                  (emit [EvCallback display_track_analysis_cb loaded
                           (Some (builder, filename))] w))
        as (Hf & evs & Ht & Hb).
      rewrite trace_emit in Ht. cbn [files emit set_trace] in Hf.
      destruct (benign_offline _ Hb) as (Hn & Hw & _).
      destruct (EchonestExtension.__display_track_analysis _ _ _ _) as [[[]|e] w'];
        cbn [snd] in *; (split; [done|]); eexists (_ :: evs);
        (split; [by rewrite Ht, <- app_assoc|]);
        cbn [existsb is_network is_cache_write orb]; done.
    + split; [done|]. exists []. by rewrite app_nil_r.
  - split; [done|]. exists []. by rewrite app_nil_r.
Qed.

Lemma analysis_worker_unfold filename callback data w :
  EchonestExtension.analysis_worker filename callback data w =
    match EchonestExtension.__load_from_cache filename w with
    | (Return loaded, w1) => after_load filename callback data loaded w1
    | (Raise e, w1) => (Raise e, w1)
    end.
Proof. reflexivity. Qed.

Lemma after_load_hit filename callback data loaded w1 :
  truthy loaded = true ->
  let out := after_load filename callback data loaded w1 in
  files out.2 = files w1
  /\ exists evs, trace out.2 = trace w1 ++ evs
       /\ existsb is_network evs = false /\ existsb is_cache_write evs = false.
Proof.
  intros Hloaded. unfold after_load. rewrite Hloaded. simpl.
  unfold bind at 1, ret at 1.
  apply callback_offline.
Qed.

Lemma after_load_miss_run filename callback data loaded w1 :
  truthy loaded = false ->
  after_load filename callback data loaded w1 =
    match track_from_filename filename with
    | Raise e => (Raise e, emit [EvTrackFromFilename filename] w1)
    | Return t =>
        let w2 := emit [EvTrackFromFilename filename; EvGetAnalysis] w1 in
        match get_analysis t with
        | Raise e => (Raise e, w2)
        | Return t' =>
            match EchonestExtension.__save_to_cache filename (PyTrack t') w2 with
            | (Raise e, w3) => (Raise e, w3)
            | (Return _, w3) =>
                match callback with
                | Some cb => EchonestExtension.call cb (PyTrack t') data
                | None => ret tt
                end w3
            end
        end
    end.
Proof.
  intros Hloaded. unfold after_load. rewrite Hloaded. cbn [negb].
  unfold call_track_from_filename, call_get_analysis, bind, lift.
  rewrite !log_run.
  destruct (track_from_filename filename) as [t|e]; [|done].
  rewrite emit_emit. cbn [app].
  destruct (get_analysis t) as [t'|e]; [|done].
  cbv zeta.
  destruct (EchonestExtension.__save_to_cache _ _ _) as [[[]|e] w3]; done.
Qed.

Lemma after_load_miss filename callback data loaded w1 :
  truthy loaded = false ->
  exists rest,
    trace (after_load filename callback data loaded w1).2
      = trace w1 ++ EvTrackFromFilename filename :: rest
    /\ forall t t' h,
         track_from_filename filename = Return t -> get_analysis t = Return t' ->
         hash_file filename = Return h ->
         exists rest',
           rest = EvGetAnalysis :: EvHashFile filename
                    :: EvOpen (analysis_path h) Wb :: rest'.
Proof.
  intros Hloaded. rewrite after_load_miss_run by done.
  destruct (track_from_filename filename) as [t|e].
  2:{ exists []. split; [done|]. intros; discriminate. }
  destruct (get_analysis t) as [t'|e] eqn:Hanalysis.
  2:{ exists [EvGetAnalysis]. split; [done|]. intros; congruence. }
  cbv zeta. rewrite save_to_cache_run.
  destruct (hash_file filename) as [h|e].
  2:{ rewrite emit_emit. eexists. split; [|intros; discriminate].
      cbn. reflexivity. }
  cbv zeta. rewrite emit_emit. cbn [app].
  set (evs := [_; _; _; _]).
  assert (Hev : forall fs r out,
             trace out = trace (set_files fs (emit evs w1)) ++ r ->
             exists rest, trace out = trace w1 ++ EvTrackFromFilename filename :: rest
             /\ forall t0 t'0 h0,
                  Return t = Return t0 -> get_analysis t0 = Return t'0 ->
                  Return h = Return h0 ->
                  exists rest',
                    rest = EvGetAnalysis :: EvHashFile filename
                             :: EvOpen (analysis_path h0) Wb :: rest').
  { intros fs r out ->. exists (tl evs ++ r). split.
    - cbn [trace set_files emit set_trace tl evs]. by rewrite <- app_assoc.
    - intros ? ? h0 _ _ [= <-]. by exists r. }
  destruct (open_wb (files _) (analysis_path h)) as [fs|e].
  - destruct (pickle_dump (PyTrack t')) as [payload|e].
    + destruct (callback_offline callback (PyTrack t') data
                  (set_files (fun _ => write_all fs (analysis_path h) payload)
                     (emit evs w1))) as (_ & r & Ht & _).
      cbv zeta in Ht. eapply Hev. exact Ht.
    + eapply (Hev (fun _ => write_all fs (analysis_path h)
                             (pickle_dump_written (PyTrack t'))) []).
      by rewrite app_nil_r.
  - apply (Hev (fun fs => fs) []). rewrite app_nil_r. by destruct w1.
Qed.

Lemma after_load_fetch_error filename callback data loaded w1 e :
  truthy loaded = false ->
  (track_from_filename filename = Raise e
   \/ exists t, track_from_filename filename = Return t /\ get_analysis t = Raise e) ->
  exists evs,
    after_load filename callback data loaded w1 = (Raise e, emit evs w1)
    /\ existsb is_cache_write evs = false /\ existsb is_callback evs = false.
Proof.
  intros Hloaded Hfetch. rewrite after_load_miss_run by done.
  destruct Hfetch as [-> | (t & -> & Hanalysis)].
  - by exists [EvTrackFromFilename filename].
  - cbv zeta. rewrite Hanalysis.
    by exists [EvTrackFromFilename filename; EvGetAnalysis].
Qed.

End Worker.

(** C1. [analysis_worker] reads the cache first.  It then calls the
    service ([track_from_filename], then [get_analysis], then the
    opening of the cache file for writing) exactly when the value read
    counts as false for [if not track], as [None] does and as no track
    does: when the value read is true, a track, the trace holds no call
    to the service and no file opened for writing, and the files are as
    they were. *)
Theorem analysis_worker_fetches_iff_cache_miss `{Host} filename callback data w :
  let '(loaded, w1) := EchonestExtension.__load_from_cache filename w in
  let '(outcome, w') := EchonestExtension.analysis_worker filename callback data w in
  exists evs1 evs,
    trace w1 = trace w ++ EvHashFile filename :: evs1
    /\ trace w' = trace w1 ++ evs
    /\ match loaded with
       | Raise e => outcome = Raise e /\ evs = []
       | Return cached =>
           exists h,
             hash_file filename = Return h
             /\ evs1 = [EvOpen (analysis_path h) Rb]
             /\ existsb is_network evs = negb (truthy cached)
             /\ (truthy cached = true ->
                 existsb is_cache_write evs = false /\ files w' = files w1)
             /\ (truthy cached = false ->
                 exists rest,
                   evs = EvTrackFromFilename filename :: rest
                   /\ forall t t',
                        track_from_filename filename = Return t ->
                        get_analysis t = Return t' ->
                        exists rest',
                          rest = EvGetAnalysis :: EvHashFile filename
                                   :: EvOpen (analysis_path h) Wb :: rest')
       end
    /\ truthy PyNone = false /\ forall t, truthy (PyTrack t) = true.
Proof.
  rewrite analysis_worker_unfold.
  destruct (EchonestExtension.__load_from_cache filename w) as [[cached|e] w1] eqn:Hload.
  - destruct (load_from_cache_returns _ _ _ _ Hload) as (h & Hh & ->).
    destruct (after_load filename callback data cached _) as [outcome w'] eqn:Hafter.
    destruct (truthy cached) eqn:Htruthy.
    + destruct (after_load_hit filename callback data cached
                  (emit [EvHashFile filename; EvOpen (analysis_path h) Rb] w) Htruthy)
        as (Hfiles & evs & Htrace & Hnet & Hwrite).
      rewrite Hafter in *. cbn [snd] in *.
      exists [EvOpen (analysis_path h) Rb], evs.
      repeat split; try done. exists h. repeat split; done.
    + destruct (after_load_miss filename callback data cached
                  (emit [EvHashFile filename; EvOpen (analysis_path h) Rb] w) Htruthy)
        as (rest & Htrace & Hrest).
      rewrite Hafter in *. cbn [snd] in *.
      exists [EvOpen (analysis_path h) Rb], (EvTrackFromFilename filename :: rest).
      repeat split; try done. exists h. repeat split; try done.
      intros _. exists rest. split; [done|]. intros t t' Ht Ht'. by eapply Hrest.
  - destruct (load_from_cache_raises _ _ _ _ Hload) as (evs1 & ->).
    exists evs1, []. rewrite app_nil_r. repeat split; done.
Qed.

Lemma analysis_worker_fetches_iff_cache_miss_witness :
  let worker := EchonestExtension.analysis_worker (H := Demo.host) "/media/song.ogg"
                  None None in
  (existsb is_network (drop 2 (trace (worker Demo.cached).2)) = false
   /\ existsb is_cache_write (drop 2 (trace (worker Demo.cached).2)) = false
   /\ files (worker Demo.cached).2 = files Demo.cached)
  /\ exists rest,
       drop 2 (trace (worker Demo.fresh).2)
       = EvTrackFromFilename "/media/song.ogg" :: EvGetAnalysis
           :: EvHashFile "/media/song.ogg" :: EvOpen Demo.analysis_file Wb :: rest.
Proof.
  cbv zeta. split.
  - pose proof (analysis_worker_fetches_iff_cache_miss (H := Demo.host)
                  "/media/song.ogg" None None Demo.cached) as Hhit.
    destruct (EchonestExtension.__load_from_cache _ _) as [loaded w1] eqn:Hload.
    vm_compute in Hload. injection Hload as <- <-.
    destruct (EchonestExtension.analysis_worker _ _ _ _) as [outcome w'] eqn:Hrun.
    destruct Hhit as (evs1 & evs & Hevs1 & Hevs & (h & _ & _ & Hnet & Hhit & _) & _).
    destruct (Hhit eq_refl) as [Hwrite Hfiles].
    cbn [snd]. rewrite Hevs. cbn [trace app drop]. done.
  - pose proof (analysis_worker_fetches_iff_cache_miss (H := Demo.host)
                  "/media/song.ogg" None None Demo.fresh) as Hmiss.
    destruct (EchonestExtension.__load_from_cache _ _) as [loaded w1] eqn:Hload.
    vm_compute in Hload. injection Hload as <- <-.
    destruct (EchonestExtension.analysis_worker _ _ _ _) as [outcome w'] eqn:Hrun.
    destruct Hmiss as (evs1 & evs & Hevs1 & Hevs & (h & Hh & _ & _ & _ & Hmiss) & _).
    destruct (Hmiss eq_refl) as (rest & -> & Hrest).
    destruct (Hrest Demo.uploaded Demo.analysed eq_refl eq_refl) as (rest' & ->).
    injection Hh as <-.
    exists rest'. cbn [snd]. rewrite Hevs. reflexivity.
Defined.

(** C2, as the code has it.  The [try] block of [__load_from_cache]
    covers the opening and the unpickling of the cache file, and its
    handler takes every [IOError]: a cache file that cannot be opened,
    for whatever reason (not found, but also no permission, or a
    directory), gives [None]; an exception of [pickle.load] that is no
    [IOError] (a malformed payload) leaves the method; so does any
    exception of [hash_file], which runs before the [try] block. *)
Theorem load_from_cache_handles_IOError `{Host} filename w :
  (forall e, hash_file filename = Raise e ->
     (EchonestExtension.__load_from_cache filename w).1 = Raise e)
  /\ (forall h code,
        hash_file filename = Return h ->
        open_rb (files w) (analysis_path h) = Raise (IOError code) ->
        (EchonestExtension.__load_from_cache filename w).1 = Return PyNone)
  /\ (forall h payload e,
        hash_file filename = Return h ->
        open_rb (files w) (analysis_path h) = Return payload ->
        pickle_load payload = Raise e ->
        (EchonestExtension.__load_from_cache filename w).1
          = if isinstance_IOError e then Return PyNone else Raise e)
  /\ (forall h payload v,
        hash_file filename = Return h ->
        open_rb (files w) (analysis_path h) = Return payload ->
        pickle_load payload = Return v ->
        (EchonestExtension.__load_from_cache filename w).1 = Return v).
Proof.
  rewrite load_from_cache_run. repeat split.
  - by intros e ->.
  - by intros h code -> ->.
  - intros h payload e -> ->. simpl. intros ->. by destruct (isinstance_IOError e).
  - intros h payload v -> ->. simpl. by intros ->.
Qed.

Lemma load_from_cache_handles_IOError_witness :
  let load := EchonestExtension.__load_from_cache (H := Demo.host) "/media/song.ogg" in
  (load Demo.fresh).1 = Return PyNone
  /\ (load Demo.locked).1 = Return PyNone
  /\ (load Demo.garbled).1 = Raise UnpicklingError
  /\ (load Demo.cached).1 = Return (PyTrack Demo.analysed)
  /\ (EchonestExtension.__load_from_cache (H := Demo.host) "/media/gone.ogg" Demo.cached).1
     = Raise (IOError ENOENT).
Proof.
  cbv zeta. refine (conj _ (conj _ (conj _ (conj _ _)))).
  - apply (load_from_cache_handles_IOError (H := Demo.host) "/media/song.ogg" Demo.fresh)
      with (h := "3b5d") (code := ENOENT); reflexivity.
  - apply (load_from_cache_handles_IOError (H := Demo.host) "/media/song.ogg" Demo.locked)
      with (h := "3b5d") (code := EACCES); reflexivity.
  - apply (load_from_cache_handles_IOError (H := Demo.host) "/media/song.ogg" Demo.garbled)
      with (h := "3b5d") (payload := [Byte.x00; Byte.x01]) (e := UnpicklingError);
      reflexivity.
  - apply (load_from_cache_handles_IOError (H := Demo.host) "/media/song.ogg" Demo.cached)
      with (h := "3b5d") (payload := [Byte.x54]); reflexivity.
  - apply (load_from_cache_handles_IOError (H := Demo.host) "/media/gone.ogg" Demo.cached).
    reflexivity.
Defined.

(** C2, as stated, fails: a cache file that is there and that the
    process may not read is a failure other than "file not found", and
    it does not leave [__load_from_cache] as an exception. *)
Lemma load_from_cache_handles_more_than_not_found :
  ~ (forall (H : Host) filename w h e,
       hash_file filename = Return h ->
       open_rb (files w) (analysis_path h) = Raise e ->
       e <> IOError ENOENT ->
       (EchonestExtension.__load_from_cache filename w).1 = Raise e).
Proof.
  intros Hclaim.
  specialize (Hclaim Demo.host "/media/song.ogg" Demo.locked "3b5d" (IOError EACCES)).
  discriminate Hclaim; [reflexivity | reflexivity | discriminate].
Qed.

(** C3. When the cache gives no track and the service raises, in
    [track_from_filename] or in [get_analysis], [analysis_worker] raises
    that exception: the world is the one it started in, but for the
    trace, and the trace holds neither a file opened for writing nor a
    call of the callback. *)
Theorem analysis_worker_fetch_error_propagates `{Host} filename callback data w
    cached w1 e :
  EchonestExtension.__load_from_cache filename w = (Return cached, w1) ->
  truthy cached = false ->
  (track_from_filename filename = Raise e
   \/ exists t, track_from_filename filename = Return t /\ get_analysis t = Raise e) ->
  exists w',
    EchonestExtension.analysis_worker filename callback data w = (Raise e, w')
    /\ files w' = files w /\ self w' = self w /\ builders w' = builders w
    /\ previewers w' = previewers w /\ threads w' = threads w
    /\ exists evs, trace w' = trace w ++ evs
         /\ existsb is_cache_write evs = false /\ existsb is_callback evs = false.
Proof.
  intros Hload Htruthy Hfetch.
  rewrite analysis_worker_unfold, Hload.
  destruct (load_from_cache_returns _ _ _ _ Hload) as (h & Hh & ->).
  destruct (after_load_fetch_error filename callback data cached
              (emit [EvHashFile filename; EvOpen (analysis_path h) Rb] w) e Htruthy Hfetch)
    as (evs & -> & Hwrite & Hcallback).
  eexists. split; [reflexivity|]. rewrite emit_emit. repeat (split; [reflexivity|]).
  eexists. split; [reflexivity|].
  cbn [app existsb is_cache_write is_callback orb]. done.
Qed.

Lemma analysis_worker_fetch_error_propagates_witness :
  exists w',
    EchonestExtension.analysis_worker (H := Demo.host) "/media/offline.ogg"
      (Some display_track_analysis_cb) (Some (Some 0%nat, "/media/offline.ogg"))
      Demo.fresh
    = (Raise (EchoNestAPIError 5), w')
    /\ files w' = files Demo.fresh /\ self w' = self Demo.fresh
    /\ builders w' = builders Demo.fresh
    /\ previewers w' = previewers Demo.fresh /\ threads w' = threads Demo.fresh
    /\ exists evs, trace w' = trace Demo.fresh ++ evs
         /\ existsb is_cache_write evs = false /\ existsb is_callback evs = false.
Proof.
  eapply (analysis_worker_fetch_error_propagates (H := Demo.host)) with (cached := PyNone).
  - vm_compute. reflexivity.
  - reflexivity.
  - left. reflexivity.
Defined.

(** C4. [__load_from_cache] and [__save_to_cache] open the same file for
    a media file of digest [h]: the one named by the digest and the
    suffix ['.analysis'] in the subdirectory ['echonest'] of the XDG cache
    directory.  So what a completed save has written for a file name is
    what the next load for that name returns, when [pickle] gives back
    the object it has dumped. *)
Theorem save_then_load_round_trip `{Host} filename :
  (forall h track w1 w2,
     hash_file filename = Return h ->
     trace (EchonestExtension.__load_from_cache filename w1).2
       = trace w1 ++ [EvHashFile filename; EvOpen (analysis_path h) Rb]
     /\ trace (EchonestExtension.__save_to_cache filename track w2).2
        = trace w2 ++ [EvHashFile filename; EvOpen (analysis_path h) Wb])
  /\ (forall track w w',
        EchonestExtension.__save_to_cache filename track w = (Return tt, w') ->
        (forall payload, pickle_dump track = Return payload ->
                         pickle_load payload = Return track) ->
        (EchonestExtension.__load_from_cache filename w').1 = Return track).
Proof.
  split.
  - intros h track w1 w2 Hh.
    rewrite load_from_cache_run, save_to_cache_run, Hh. cbv zeta. split.
    + destruct (rbind _ _) as [v|e]; [done|]. by destruct (isinstance_IOError e).
    + destruct (open_wb _ _) as [fs|e]; [|done].
      by destruct (pickle_dump track).
  - intros track w w'. rewrite save_to_cache_run, load_from_cache_run.
    destruct (hash_file filename) as [h|e]; [|done]. cbv zeta.
    destruct (open_wb _ _) as [fs|e] eqn:Hopen; [|done].
    destruct (pickle_dump track) as [payload|e] eqn:Hdump; [|done].
    intros [= <-] Hpickle. cbn [files set_files emit set_trace].
    cbn [files emit set_trace] in Hopen.
    rewrite (open_wb_then_read _ _ _ _ Hopen). cbn [rbind].
    by rewrite (Hpickle payload).
Qed.

Lemma save_then_load_round_trip_witness :
  let save := EchonestExtension.__save_to_cache (H := Demo.host) "/media/song.ogg"
                (PyTrack Demo.analysed) in
  (EchonestExtension.__load_from_cache (H := Demo.host) "/media/song.ogg"
     (save Demo.fresh).2).1 = Return (PyTrack Demo.analysed).
Proof.
  cbv zeta.
  apply (proj2 (save_then_load_round_trip (H := Demo.host) "/media/song.ogg")
           (PyTrack Demo.analysed) Demo.fresh).
  - vm_compute. reflexivity.
  - intros payload [= <-]. reflexivity.
Defined.

(** ** The previewer *)

Lemma fold_left_snoc2 {A B} (f g : A -> B) (l : list A) (acc : list B) :
  fold_left (fun acc x => (acc ++ [f x]) ++ [g x]) l acc
  = acc ++ flat_map (fun x => [f x; g x]) l.
Proof.
  revert acc. induction l as [|x l IH]; intros acc; simpl.
  - by rewrite app_nil_r.
  - rewrite IH, <- !app_assoc. done.
Qed.

Lemma stroked_marker_lines width height markers current path :
  stroked
    (flat_map (fun marker =>
                 [move_to (PrimFloat.mul marker (float_of_int width)) 0;
                  line_to (PrimFloat.mul marker (float_of_int width)) height])
       markers ++ [stroke]) current path
  = path ++ map (marker_line width height) markers.
Proof.
  revert current path. induction markers as [|m ms IH]; intros current path.
  - simpl. by rewrite !app_nil_r.
  - cbn [flat_map app stroked]. rewrite IH, <- app_assoc. done.
Qed.

Lemma ratios_track t l :
  ratios (PyTrack t) l =
    if (PrimFloat.eqb (duration t) 0 && negb (bool_decide (l = [])))%bool
    then Raise ZeroDivisionError
    else Return (map (fun m => PrimFloat.div (start m) (duration t)) l).
Proof.
  unfold ratios. cbn [getattr rbind]. unfold truediv.
  destruct (PrimFloat.eqb (duration t) 0).
  - by destruct l.
  - cbn [andb]. induction l as [|m l IH]; [done|].
    cbn [comprehension map]. by rewrite IH.
Qed.

Lemma ratios_are_beat_ratios t l markers :
  l ⊆ beats t -> ratios (PyTrack t) l = Return markers -> Forall (is_beat_ratio t) markers.
Proof.
  intros Hl. rewrite ratios_track. case_match; [done|]. intros [= <-].
  apply Forall_forall. intros m (beat & -> & Hbeat)%list_elem_of_fmap.
  exists beat. split; [by apply Hl|done].
Qed.

Section PreviewerRuns.
Context `{Host}.

Lemma init_run track darea clip_filename w :
  AudioPreviewer.__init__ track darea clip_filename w =
    match hash_file clip_filename with
    | Raise e => (Raise e, emit [EvHashFile clip_filename] w)
    | Return h =>
        let w1 := emit [EvHashFile clip_filename; EvOpen (wave_path h) Rb] w in
        match open_rb (files w) (wave_path h) with
        | Raise e => (Raise e, w1)
        | Return payload =>
            match pickle_load payload with
            | Raise e => (Raise e, w1)
            | Return v =>
                match iter v with
                | Raise e => (Raise e, w1)
                | Return items =>
                    match Py.max items with
                    | Raise e => (Raise e, w1)
                    | Return max_peak =>
                        let self := length (previewers w) in
                        (Return self,
                         set_builders
                           (alter (with_waveform_area (connect_draw self)) darea)
                           (set_previewers
                              (fun ps => ps ++ [Previewer darea items max_peak track
                                                  None []]) w1))
                    end
                end
            end
        end
    end.
Proof.
  unfold AudioPreviewer.__init__, call_hash_file, bind at 1 2.
  rewrite log_run. unfold lift at 1.
  destruct (hash_file clip_filename) as [h|e]; [|done].
  unfold call_open_rb, bind at 1 2. rewrite log_run, emit_emit.
  unfold get_dir. fold (wave_path h). cbn [app].
  unfold bind at 1, get at 1, lift at 1. cbn [files emit set_trace].
  destruct (open_rb (files w) (wave_path h)) as [payload|e]; [|done].
  unfold bind at 1, lift at 1.
  destruct (pickle_load payload) as [v|e]; [|done].
  unfold bind at 1, lift at 1.
  destruct (iter v) as [items|e]; [|done].
  unfold bind at 1, lift at 1.
  destruct (Py.max items) as [max_peak|e]; done.
Qed.

Lemma init_returns track darea clip w self w1 :
  AudioPreviewer.__init__ track darea clip w = (Return self, w1) ->
  exists h payload peaks max_peak,
    hash_file clip = Return h
    /\ open_rb (files w) (wave_path h) = Return payload
    /\ pickle_load payload = Return (PyList peaks)
    /\ Py.max peaks = Return max_peak
    /\ previewers w1 !! self = Some (Previewer darea peaks max_peak track None []).
Proof.
  rewrite init_run.
  destruct (hash_file clip) as [h|e] eqn:Hh; [|done]. cbv zeta.
  destruct (open_rb (files w) (wave_path h)) as [payload|e] eqn:Hopen; [|done].
  destruct (pickle_load payload) as [[| |peaks|]|e] eqn:Hload; try done. cbn [iter].
  destruct (Py.max peaks) as [max_peak|e] eqn:Hmax; [|done].
  intros [= <- <-]. exists h, payload, peaks, max_peak.
  repeat (split; [done|]).
  cbn [previewers set_builders set_previewers emit set_trace].
  by apply list_lookup_middle.
Qed.

Lemma init_raises track darea clip w e w1 :
  AudioPreviewer.__init__ track darea clip w = (Raise e, w1) ->
  exists evs, w1 = emit evs w.
Proof.
  rewrite init_run. repeat case_match; intros [= _ <-]; by eexists.
Qed.

Lemma draw_cb_run self darea context w pv d :
  previewers w !! self = Some pv ->
  builders w !! darea = Some d ->
  let width := alloc_width (waveform_area d) in
  let height := alloc_height (waveform_area d) in
  AudioPreviewer.draw_cb self darea context w =
    (Return (context ++ drawing pv width height),
     set_previewers
       (alter (with_surface
                 (Some (fill_surface (__peaks pv) width height (__max_peak pv))))
          self) w).
Proof.
  intros Hpv Hd. unfold AudioPreviewer.draw_cb.
  rewrite (run_bind_return _ _ _ _ _ (get_dialog_run _ _ _ Hd)).
  rewrite (run_bind_return _ _ _ _ _ (get_previewer_run _ _ _ Hpv)).
  unfold update_previewer. run. unfold ret, drawing.
  rewrite fold_left_snoc2, <- !app_assoc. reflexivity.
Qed.

End PreviewerRuns.

(** ** Slices *)

Lemma every_from_lookup {A} (l : list A) pred_step j k :
  every_from pred_step j l !! k = l !! (j + k * S pred_step)%nat.
Proof.
  revert j k. induction l as [|x l IH]; intros j k; [done|].
  destruct j as [|j]; cbn [every_from].
  - destruct k as [|k]; [done|]. cbn [lookup list_lookup]. rewrite IH.
    cbn [Nat.mul Nat.add]. done.
  - cbn [Nat.add lookup list_lookup]. by rewrite IH.
Qed.

Lemma every_from_subseteq {A} (l : list A) pred_step j : every_from pred_step j l ⊆ l.
Proof.
  revert j. induction l as [|x l IH]; intros j; [done|].
  destruct j; cbn [every_from].
  - apply list_subseteq_skip, IH.
  - apply list_subseteq_cons, IH.
Qed.

Lemma slice_from0_step_lookup {A} (l : list A) step :
  1 <= step ->
  exists every,
    slice_from0_step l step = Return every
    /\ forall k, every !! k = l !! (k * Z.to_nat step)%nat.
Proof.
  intros Hstep. unfold slice_from0_step.
  destruct (Z.eqb_spec step 0) as [|_]; [lia|].
  destruct (Z.ltb_spec 0 step) as [_|]; [|lia].
  eexists. split; [done|]. intros k. rewrite every_from_lookup.
  replace (S (Z.to_nat step - 1)) with (Z.to_nat step) by lia. done.
Qed.

Lemma slice_from0_step_subseteq {A} (l every : list A) step :
  slice_from0_step l step = Return every -> every ⊆ l.
Proof.
  unfold slice_from0_step. repeat case_match; intros [= <-].
  - apply every_from_subseteq.
  - apply subseteq_take.
Qed.

(** ** The dialog *)

Lemma alter_last {A} (f : A -> A) (l : list A) (x : A) :
  alter f (length l) (l ++ [x]) = l ++ [f x].
Proof. rewrite <- (Nat.add_0_r (length l)). by rewrite alter_app_r. Qed.

Section Dialog.
Context `{Host}.

Lemma analyse_track_run filename callback data w :
  EchonestExtension.__analyse_track filename callback data w =
    (Return tt,
     set_threads (fun ts => ts ++ [Thread filename callback data true true]) w).
Proof.
  unfold EchonestExtension.__analyse_track, bind, get, modify.
  destruct w as [fs bs ps ts tr ext]. unfold set_threads. cbn.
  by rewrite !alter_last.
Qed.

Lemma compute_markers_run w b d t p pv step markers :
  __current_builder (self w) = Some b ->
  builders w !! b = Some d ->
  __current_track (self w) = PyTrack t ->
  __audio_previewer (self w) = Some p ->
  previewers w !! p = Some pv ->
  int_of_float (value (step_spinner d)) = Return step ->
  (if bool_decide (active_id (range_combo d) = Some "full")
   then rbind (slice_from0_step (beats t) step) (ratios (PyTrack t))
   else Return []) = Return markers ->
  EchonestExtension.__compute_markers w =
    (Return tt,
     set_builders (alter (with_waveform_area queue_draw) (darea pv))
       (set_previewers (alter (with_markers markers) p)
          (set_builders
             (alter (with_beat_label (if step =? 1 then "beat" else "beats")) b) w))).
Proof.
  intros Hb Hd Ht Hp Hpv Hstep Hmarkers.
  unfold EchonestExtension.__compute_markers.
  run. rewrite Hb. run. rewrite (run_bind_return _ _ _ _ _ (get_dialog_run _ _ _ Hd)).
  rewrite Hstep. run.
  erewrite run_bind_return; cycle 1.
  { instantiate (1 := set_builders
                        (alter (with_beat_label (if step =? 1 then "beat" else "beats")) b)
                        w).
    instantiate (1 := tt). by destruct (step =? 1). }
  erewrite run_bind_return; cycle 1.
  { instantiate (2 := markers).
    destruct (bool_decide _); [|by injection Hmarkers as <-].
    run. cbn [self set_builders]. rewrite Ht. cbn [getattr]. run.
    destruct (slice_from0_step (beats t) step) as [every|e]; [|done].
    run. cbn [rbind] in Hmarkers. by rewrite Hmarkers. }
  run. cbn [self set_builders]. rewrite Hp. run.
  unfold AudioPreviewer.set_markers, update_previewer. run.
  erewrite run_bind_return; cycle 1.
  { apply get_previewer_run. cbn [previewers set_previewers set_builders].
    rewrite list_lookup_alter_eq, Hpv. reflexivity. }
  reflexivity.
Qed.

(** The same when the markers cannot be computed: the label has been
    set, and nothing else. *)
Lemma compute_markers_raise_run w b d t step e :
  __current_builder (self w) = Some b ->
  builders w !! b = Some d ->
  __current_track (self w) = PyTrack t ->
  int_of_float (value (step_spinner d)) = Return step ->
  (if bool_decide (active_id (range_combo d) = Some "full")
   then rbind (slice_from0_step (beats t) step) (ratios (PyTrack t))
   else Return []) = Raise e ->
  EchonestExtension.__compute_markers w =
    (Raise e,
     set_builders
       (alter (with_beat_label (if step =? 1 then "beat" else "beats")) b) w).
Proof.
  intros Hb Hd Ht Hstep Hmarkers.
  unfold EchonestExtension.__compute_markers.
  run. rewrite Hb. run. rewrite (run_bind_return _ _ _ _ _ (get_dialog_run _ _ _ Hd)).
  rewrite Hstep. run.
  erewrite run_bind_return; cycle 1.
  { instantiate (1 := set_builders
                        (alter (with_beat_label (if step =? 1 then "beat" else "beats")) b)
                        w).
    instantiate (1 := tt). by destruct (step =? 1). }
  apply run_bind_raise.
  destruct (bool_decide _); [|done].
  run. cbn [self set_builders]. rewrite Ht. cbn [getattr]. run.
  destruct (slice_from0_step (beats t) step) as [every|e'];
    [|by injection Hmarkers as <-].
  run. cbn [rbind] in Hmarkers. by rewrite Hmarkers.
Qed.

Lemma compute_markers_returns w w' t :
  __current_track (self w) = PyTrack t ->
  EchonestExtension.__compute_markers w = (Return tt, w') ->
  self w' = self w
  /\ exists p pv,
       __audio_previewer (self w) = Some p
       /\ previewers w' !! p = Some pv
       /\ Forall (is_beat_ratio t) (__markers pv).
Proof.
  intros Ht Hrun. unfold EchonestExtension.__compute_markers in Hrun.
  returned Hrun. returned Hrun as b Hb. returned Hrun as d Hd.
  returned Hrun as step Hstep.
  apply bind_returns in Hrun as ([] & w1 & Hlabel & Hrun).
  assert (Hw1 : self w1 = self w /\ previewers w1 = previewers w).
  { destruct (step =? 1); injection Hlabel as <-; done. }
  destruct Hw1 as [Hself1 Hpreviewers1].
  apply bind_returns in Hrun as (markers & w2 & Hmarkers & Hrun).
  assert (Hw2 : w2 = w1 /\ Forall (is_beat_ratio t) markers).
  { destruct (bool_decide _).
    - returned Hmarkers. returned Hmarkers as all Hall.
      returned Hmarkers as every Hevery.
      apply lift_returns in Hmarkers as [Hmarkers ->]. split; [done|].
      rewrite Hself1, Ht in Hall. injection Hall as <-.
      rewrite Ht in Hmarkers.
      eapply ratios_are_beat_ratios; [|done].
      by eapply slice_from0_step_subseteq.
    - injection Hmarkers as <- <-. by split. }
  destruct Hw2 as [-> Hratios].
  returned Hrun. returned Hrun as p Hp.
  apply bind_returns in Hrun as ([] & w3 & [= <-] & Hrun).
  returned Hrun as pv' Hpv'. injection Hrun as <-.
  rewrite Hself1 in Hp.
  split; [by rewrite <- Hself1|].
  cbn [previewers set_previewers] in Hpv'.
  rewrite list_lookup_alter_eq in Hpv'.
  destruct (previewers w1 !! p) as [pv|] eqn:Hpv; [|done].
  exists p, (with_markers markers pv). split; [done|]. split; [|done].
  cbn [previewers set_builders set_previewers].
  by rewrite list_lookup_alter_eq, Hpv.
Qed.

Lemma same_self_fill_metadata_list track :
  preserves same_self (EchonestExtension.__fill_metadata_list track).
Proof.
  unfold EchonestExtension.__fill_metadata_list, get_dialog, update_dialog.
  solve_same_self.
Qed.

Lemma prepare_beat_matcher_returns t filename w w' :
  __current_track (self w) = PyTrack t ->
  EchonestExtension.__prepare_beat_matcher (PyTrack t) filename w = (Return tt, w') ->
  exists p pv,
    __audio_previewer (self w') = Some p
    /\ previewers w' !! p = Some pv
    /\ Forall (is_beat_ratio t) (__markers pv).
Proof.
  intros Ht Hrun. unfold EchonestExtension.__prepare_beat_matcher in Hrun.
  returned Hrun. returned Hrun as b Hb. returned Hrun as d Hd.
  apply bind_returns in Hrun as (p & w1 & Hinit & Hrun).
  pose proof (same_self_init (PyTrack t) b filename w) as Hself1.
  rewrite Hinit in Hself1. unfold same_self in Hself1. cbn [snd] in Hself1.
  apply bind_returns in Hrun as ([] & w2 & [= <-] & Hrun).
  apply bind_returns in Hrun as ([] & w3 & [= <-] & Hrun).
  returned Hrun as all Hall. returned Hrun as markers Hmarkers.
  apply bind_returns in Hrun as ([] & w4 & Hset & Hrun).
  returned Hset. returned Hset as p' Hp'. injection Hset as <-.
  apply bind_returns in Hrun as ([] & w5 & Hsensitive & Hrun).
  match type of Hsensitive with
  | for_each ?ids ?body ?w4 = _ =>
      assert (Hself5 : same_self w4 w5)
  end.
  { match type of Hsensitive with
    | for_each ?ids ?body ?w4 = _ =>
        assert (Hbody : preserves same_self (for_each ids body))
          by (unfold get_dialog, update_dialog; solve_same_self);
        specialize (Hbody w4); by rewrite Hsensitive in Hbody
    end. }
  unfold same_self in Hself5. cbn [self set_previewers set_builders set_self] in Hself5.
  apply compute_markers_returns with (t := t) in Hrun
      as (Hself' & p'' & pv & Hp'' & Hpv & Hratios).
  - exists p'', pv. split; [by rewrite Hself'|done].
  - rewrite Hself5. cbn [__current_track with_audio_previewer]. by rewrite Hself1.
Qed.

Lemma display_track_analysis_returns t builder filename w w' :
  __current_builder (self w) = builder ->
  EchonestExtension.__display_track_analysis (PyTrack t) builder filename w
    = (Return tt, w') ->
  exists p pv,
    __audio_previewer (self w') = Some p
    /\ previewers w' !! p = Some pv
    /\ Forall (is_beat_ratio t) (__markers pv).
Proof.
  intros Hbuilder Hrun. unfold EchonestExtension.__display_track_analysis in Hrun.
  returned Hrun. rewrite bool_decide_eq_true_2 in Hrun by done.
  cbn [negb] in Hrun.
  apply bind_returns in Hrun as ([] & w1 & [= <-] & Hrun).
  apply bind_returns in Hrun as ([] & w2 & Hfill & Hrun).
  pose proof (same_self_fill_metadata_list (PyTrack t)
                (set_self (with_current_track (PyTrack t)) w)) as Hself2.
  rewrite Hfill in Hself2. unfold same_self in Hself2. cbn [snd] in Hself2.
  eapply prepare_beat_matcher_returns; [|exact Hrun].
  by rewrite Hself2.
Qed.

End Dialog.



(** C6. A previewer that has been built holds the list unpickled from
    the waveform cache file of the clip (named by the digest of the clip
    and the suffix ['.wave'], in the subdirectory ['waves'] of the XDG
    cache directory) and its [max].  Whatever calls follow, [draw_cb]
    paints the surface that the renderer fills from that list, the width
    and height that the area has at that time, and that maximum; the
    list and the maximum of the previewer are the same after it. *)
Theorem previewer_rasterizes_cached_peaks `{Host} track darea clip w self w1 :
  AudioPreviewer.__init__ track darea clip w = (Return self, w1) ->
  exists h payload peaks max_peak,
    hash_file clip = Return h
    /\ open_rb (files w) (wave_path h) = Return payload
    /\ pickle_load payload = Return (PyList peaks)
    /\ Py.max peaks = Return max_peak
    /\ forall calls area d context,
         builders (perform_all calls w1).2 !! area = Some d ->
         let surface :=
           fill_surface peaks (alloc_width (waveform_area d))
             (alloc_height (waveform_area d)) max_peak in
         exists ops w3 pv,
           AudioPreviewer.draw_cb self area context (perform_all calls w1).2
           = (Return (context ++ set_operator_OVER :: set_source_surface surface 0 0
                                  :: paint :: ops), w3)
           /\ previewers w3 !! self = Some pv
           /\ __surface pv = Some surface
           /\ __peaks pv = peaks /\ __max_peak pv = max_peak.
Proof.
  intros Hinit.
  destruct (init_returns _ _ _ _ _ _ Hinit)
    as (h & payload & peaks & max_peak & Hh & Hopen & Hload & Hmax & Hself).
  exists h, payload, peaks, max_peak. repeat (split; [done|]).
  intros calls area d context Hd surface.
  destruct (same_peaks_perform_all calls w1 self _ Hself)
    as (pv & Hpv & Hpeaks & Hmax_peak).
  cbn [__peaks __max_peak] in Hpeaks, Hmax_peak.
  eexists _, _, _. split; [|split].
  - rewrite (draw_cb_run _ _ _ _ _ _ Hpv Hd). unfold drawing.
    rewrite Hpeaks, Hmax_peak. reflexivity.
  - cbn [previewers set_previewers]. by rewrite list_lookup_alter_eq, Hpv.
  - cbn [with_surface __surface __peaks __max_peak]. by rewrite Hpeaks, Hmax_peak.
Qed.

Lemma previewer_rasterizes_cached_peaks_witness :
  exists h payload peaks max_peak,
    hash_file (Host := Demo.host) "/media/song.ogg" = Return h
    /\ open_rb (files Demo.dialog_waiting) (wave_path (H := Demo.host) h) = Return payload
    /\ pickle_load (Host := Demo.host) payload = Return (PyList peaks)
    /\ Py.max peaks = Return max_peak
    /\ forall calls area d context,
         let w1 := (AudioPreviewer.__init__ (H := Demo.host) (PyTrack Demo.analysed) 0
                      "/media/song.ogg" Demo.dialog_waiting).2 in
         builders (perform_all (H := Demo.host) calls w1).2 !! area = Some d ->
         let surface :=
           fill_surface peaks (alloc_width (waveform_area d))
             (alloc_height (waveform_area d)) max_peak in
         exists ops w3 pv,
           AudioPreviewer.draw_cb 0 area context (perform_all (H := Demo.host) calls w1).2
           = (Return (context ++ set_operator_OVER :: set_source_surface surface 0 0
                                  :: paint :: ops), w3)
           /\ previewers w3 !! 0%nat = Some pv
           /\ __surface pv = Some surface
           /\ __peaks pv = peaks /\ __max_peak pv = max_peak.
Proof.
  apply (previewer_rasterizes_cached_peaks (H := Demo.host) (PyTrack Demo.analysed)
           0%nat "/media/song.ogg" Demo.dialog_waiting 0%nat).
  vm_compute. reflexivity.
Defined.

(** C10. [AudioPreviewer.__init__] raises when the waveform cache file
    of the clip cannot be opened (no handler is around [open]) and when
    the list it unpickles is empty ([max] raises); when it returns, the
    file is there and holds a list with a peak.  Nothing is built when it
    raises. *)
Theorem previewer_needs_cached_peaks `{Host} track darea clip w :
  (forall e, hash_file clip = Raise e ->
     (AudioPreviewer.__init__ track darea clip w).1 = Raise e)
  /\ (forall h e,
        hash_file clip = Return h ->
        open_rb (files w) (wave_path h) = Raise e ->
        (AudioPreviewer.__init__ track darea clip w).1 = Raise e)
  /\ (forall h payload,
        hash_file clip = Return h ->
        open_rb (files w) (wave_path h) = Return payload ->
        pickle_load payload = Return (PyList []) ->
        (AudioPreviewer.__init__ track darea clip w).1 = Raise ValueError)
  /\ (forall self w',
        AudioPreviewer.__init__ track darea clip w = (Return self, w') ->
        exists h payload peak peaks,
          hash_file clip = Return h
          /\ open_rb (files w) (wave_path h) = Return payload
          /\ pickle_load payload = Return (PyList (peak :: peaks)))
  /\ (forall e w',
        AudioPreviewer.__init__ track darea clip w = (Raise e, w') ->
        previewers w' = previewers w /\ builders w' = builders w
        /\ self w' = self w).
Proof.
  refine (conj _ (conj _ (conj _ (conj _ _)))).
  - intros e He. by rewrite init_run, He.
  - intros h e Hh He. by rewrite init_run, Hh, He.
  - intros h payload Hh Hopen Hload. by rewrite init_run, Hh, Hopen, Hload.
  - intros self w' Hinit.
    destruct (init_returns _ _ _ _ _ _ Hinit)
      as (h & payload & [|peak peaks] & max_peak & Hh & Hopen & Hload & Hmax & _);
      [done|].
    by exists h, payload, peak, peaks.
  - intros e w' (evs & ->)%init_raises. done.
Qed.

Lemma previewer_needs_cached_peaks_witness :
  let init := AudioPreviewer.__init__ (H := Demo.host) (PyTrack Demo.analysed) 0 in
  (init "/media/gone.ogg" Demo.with_wave).1 = Raise (IOError ENOENT)
  /\ (init "/media/song.ogg" Demo.fresh).1 = Raise (IOError ENOENT)
  /\ (init "/media/song.ogg" Demo.no_peak).1 = Raise ValueError
  /\ (exists h payload peak peaks,
        hash_file (Host := Demo.host) "/media/song.ogg" = Return h
        /\ open_rb (files Demo.with_wave) (wave_path (H := Demo.host) h) = Return payload
        /\ pickle_load (Host := Demo.host) payload = Return (PyList (peak :: peaks)))
  /\ (let w' := (init "/media/song.ogg" Demo.no_peak).2 in
      previewers w' = previewers Demo.no_peak /\ builders w' = builders Demo.no_peak
      /\ self w' = self Demo.no_peak).
Proof.
  cbv zeta. refine (conj _ (conj _ (conj _ (conj _ _)))).
  - apply (previewer_needs_cached_peaks (H := Demo.host) (PyTrack Demo.analysed) 0%nat
             "/media/gone.ogg" Demo.with_wave).
    reflexivity.
  - apply (previewer_needs_cached_peaks (H := Demo.host) (PyTrack Demo.analysed) 0%nat
             "/media/song.ogg" Demo.fresh) with (h := "3b5d"); reflexivity.
  - apply (previewer_needs_cached_peaks (H := Demo.host) (PyTrack Demo.analysed) 0%nat
             "/media/song.ogg" Demo.no_peak) with (h := "3b5d") (payload := [Byte.x45]);
      reflexivity.
  - eapply (previewer_needs_cached_peaks (H := Demo.host) (PyTrack Demo.analysed) 0%nat
              "/media/song.ogg" Demo.with_wave).
    vm_compute. reflexivity.
  - eapply (previewer_needs_cached_peaks (H := Demo.host) (PyTrack Demo.analysed) 0%nat
              "/media/song.ogg" Demo.no_peak).
    vm_compute. reflexivity.
Defined.

(** C7. [__analyse_track] adds one thread to the threads of the process,
    a started daemon whose target is [analysis_worker] with the arguments
    of the request, and does nothing else: it keeps no reference to the
    thread, and looks at no earlier request.  So [n] requests for the
    same analysis start [n] threads. *)
Theorem analyse_track_spawns_one_daemon_thread `{Host} filename callback data w :
  let spawned := Thread filename callback data true true in
  EchonestExtension.__analyse_track filename callback data w
    = (Return tt, set_threads (fun ts => ts ++ [spawned]) w)
  /\ (forall w',
        threads w' !! length (threads w) = Some spawned ->
        EchonestExtension.thread_run (length (threads w)) w'
        = EchonestExtension.analysis_worker filename callback data w')
  /\ (forall n,
        requests n filename callback data w
        = (Return tt, set_threads (fun ts => ts ++ replicate n spawned) w)).
Proof.
  cbv zeta. split; [apply analyse_track_run|]. split.
  - intros w' Hspawned. unfold EchonestExtension.thread_run, bind at 1, get at 1.
    by rewrite Hspawned.
  - intros n. revert w. induction n as [|n IH]; intros w.
    + cbn. unfold ret. f_equal. destruct w. unfold set_threads. cbn.
      by rewrite app_nil_r.
    + cbn [requests]. rewrite (run_bind_return _ _ _ _ _ (analyse_track_run _ _ _ _)).
      rewrite IH. f_equal. destruct w. unfold set_threads. cbn.
      by rewrite <- app_assoc.
Qed.

Lemma analyse_track_spawns_one_daemon_thread_witness :
  let request := EchonestExtension.__analyse_track "/media/song.ogg"
                   (Some display_track_analysis_cb) (Some (Some 0%nat, "/media/song.ogg")) in
  threads (request Demo.fresh).2 = [Demo.song_thread]
  /\ threads ((request ;; request) Demo.fresh).2 = [Demo.song_thread; Demo.song_thread]
  /\ EchonestExtension.thread_run (H := Demo.host) 0 (request Demo.with_wave).2
     = EchonestExtension.analysis_worker (H := Demo.host) "/media/song.ogg"
         (Some display_track_analysis_cb) (Some (Some 0%nat, "/media/song.ogg"))
         (request Demo.with_wave).2.
Proof.
  cbv zeta. refine (conj _ (conj _ _)).
  - by rewrite (proj1 (analyse_track_spawns_one_daemon_thread (H := Demo.host) _ _ _ _)).
  - pose proof (proj2 (proj2 (analyse_track_spawns_one_daemon_thread (H := Demo.host)
                  "/media/song.ogg" (Some display_track_analysis_cb)
                  (Some (Some 0%nat, "/media/song.ogg")) Demo.fresh)) 2%nat) as Htwice.
    apply (f_equal (fun out => threads out.2)) in Htwice. exact Htwice.
  - apply (proj1 (proj2 (analyse_track_spawns_one_daemon_thread (H := Demo.host)
             "/media/song.ogg" (Some display_track_analysis_cb)
             (Some (Some 0%nat, "/media/song.ogg")) Demo.with_wave))).
    reflexivity.
Defined.

(** C8. [__display_track_analysis] called with a builder that is not the
    current one returns without any effect: the world is the same. *)
Theorem display_track_analysis_ignores_stale_builder `{Host} track builder filename w :
  __current_builder (self w) <> builder ->
  EchonestExtension.__display_track_analysis track builder filename w = (Return tt, w).
Proof.
  intros Hstale. unfold EchonestExtension.__display_track_analysis.
  run. rewrite bool_decide_eq_false_2 by done. reflexivity.
Qed.

Lemma display_track_analysis_ignores_stale_builder_witness :
  EchonestExtension.__display_track_analysis (H := Demo.host)
    (PyTrack Demo.analysed) (Some 0%nat) "/media/song.ogg" Demo.dialog_closed
  = (Return tt, Demo.dialog_closed).
Proof.
  apply (display_track_analysis_ignores_stale_builder (H := Demo.host)).
  discriminate.
Defined.

(** The dialog is answered before the thread of its request runs: the
    analysis comes for a builder that is no longer the current one, and
    neither the dialog nor the extension shows it. *)
Example analysis_after_the_dialog_is_closed :
  let closed := (EchonestExtension.__clip_dialog_cb (H := Demo.host)
                   "file:///media/song.ogg" (fun _ => ret tt) Demo.with_wave).2 in
  let late := (EchonestExtension.thread_run (H := Demo.host) 0 closed).2 in
  builders late = builders closed /\ previewers late = previewers closed
  /\ self late = self closed
  /\ last (trace late)
     = Some (EvCallback display_track_analysis_cb (PyTrack Demo.analysed)
               (Some (Some 0%nat, "/media/song.ogg"))).
Proof. vm_compute. auto. Qed.

(** C9, amended. With a dialog, a track and a previewer in place, and a
    step of at least 1 in the spinner, let [every] be the beats of the
    track at the indices 0, step, 2 * step, ...  When the range is
    ['full'], the duration of the track is 0 and the track has a beat,
    the division raises ZeroDivisionError: [__compute_markers] has set
    the label of the step and nothing else, so that the markers are the
    old ones and no redraw is queued.  In every other case the method
    returns; the markers of the previewer are then the quotients
    start / duration of [every] when the range is ['full'], and none
    otherwise; and one more redraw is queued on the area of the
    previewer. *)
Theorem compute_markers_every_step_th_beat w b d t p pv step :
  __current_builder (self w) = Some b ->
  builders w !! b = Some d ->
  __current_track (self w) = PyTrack t ->
  __audio_previewer (self w) = Some p ->
  previewers w !! p = Some pv ->
  int_of_float (value (step_spinner d)) = Return step ->
  1 <= step ->
  exists every,
    (forall k, every !! k = beats t !! (k * Z.to_nat step)%nat)
    /\ if (bool_decide (active_id (range_combo d) = Some "full")
           && PrimFloat.eqb (duration t) 0 && negb (bool_decide (every = [])))%bool
       then
         EchonestExtension.__compute_markers w
         = (Raise ZeroDivisionError,
            set_builders
              (alter (with_beat_label (if step =? 1 then "beat" else "beats")) b) w)
       else
         exists w',
           EchonestExtension.__compute_markers w = (Return tt, w')
           /\ previewers w' !! p
              = Some (with_markers
                        (if bool_decide (active_id (range_combo d) = Some "full")
                         then map (fun m => PrimFloat.div (start m) (duration t)) every
                         else [])
                        pv)
           /\ forall a, waveform_area <$> builders w !! darea pv = Some a ->
                        waveform_area <$> builders w' !! darea pv = Some (queue_draw a).
Proof.
  intros Hb Hd Ht Hp Hpv Hstep Hge.
  destruct (slice_from0_step_lookup (beats t) step Hge) as (every & Hevery & Hlookup).
  exists every. split; [exact Hlookup|].
  assert (Hmarkers :
            (if bool_decide (active_id (range_combo d) = Some "full")
             then rbind (slice_from0_step (beats t) step) (ratios (PyTrack t))
             else Return [])
            = if (bool_decide (active_id (range_combo d) = Some "full")
                  && PrimFloat.eqb (duration t) 0 && negb (bool_decide (every = [])))%bool
              then Raise ZeroDivisionError
              else Return
                     (if bool_decide (active_id (range_combo d) = Some "full")
                      then map (fun m => PrimFloat.div (start m) (duration t)) every
                      else [])).
  { destruct (bool_decide (active_id (range_combo d) = Some "full")); [|done].
    rewrite Hevery. cbn [rbind andb]. apply ratios_track. }
  destruct (_ && _ && _)%bool.
  - by eapply compute_markers_raise_run.
  - eexists. split; [by eapply compute_markers_run|].
    cbn [previewers builders set_builders set_previewers]. split.
    + by rewrite list_lookup_alter_eq, Hpv.
    + intros a Ha. rewrite list_lookup_alter_eq, list_lookup_alter.
      destruct (decide (b = darea pv)) as [Hsame|_].
      * rewrite <- Hsame, Hd in *. cbn in *. by injection Ha as <-.
      * destruct (builders w !! darea pv) as [da|]; [|done].
        cbn in *. by injection Ha as <-.
Qed.

Lemma compute_markers_every_step_th_beat_witness :
  (exists w' every,
     EchonestExtension.__compute_markers Demo.dialog_open = (Return tt, w')
     /\ (forall k, every !! k = beats Demo.analysed !! (k * 2)%nat)
     /\ previewers w' !! 0%nat
        = Some (with_markers (map (fun m => PrimFloat.div (start m) 8) every)
                  Demo.song_previewer)
     /\ forall a, Some (waveform_area Demo.song_dialog) = Some a ->
                  waveform_area <$> builders w' !! 0%nat = Some (queue_draw a))
  /\ EchonestExtension.__compute_markers Demo.dialog_open_on_an_instant
     = (Raise ZeroDivisionError,
        set_builders (alter (with_beat_label "beats") 0%nat)
          Demo.dialog_open_on_an_instant).
Proof.
  split.
  - destruct (compute_markers_every_step_th_beat Demo.dialog_open 0%nat
                Demo.song_dialog Demo.analysed 0%nat Demo.song_previewer 2)
      as (every & Hevery & w' & Hrun & Hmarkers & Hdraw);
      [reflexivity..|lia|].
    by exists w', every.
  - destruct (compute_markers_every_step_th_beat Demo.dialog_open_on_an_instant 0%nat
                Demo.song_dialog Demo.instant 0%nat
                (Previewer 0 Demo.peaks 0.75 (PyTrack Demo.instant) None [0.5%float]) 2)
      as (every & Hevery & Hrun);
      [reflexivity..|lia|].
    specialize (Hevery 0%nat). cbn in Hevery.
    destruct every as [|m every]; [discriminate Hevery|]. exact Hrun.
Defined.

(** C9, as stated, fails: on a track of duration 0 that has a beat, with
    the full range, [__compute_markers] does not set the markers and
    does not request a redraw; it raises ZeroDivisionError. *)
Lemma compute_markers_divides_by_the_duration :
  ~ (forall w b d t p pv step,
       __current_builder (self w) = Some b ->
       builders w !! b = Some d ->
       __current_track (self w) = PyTrack t ->
       __audio_previewer (self w) = Some p ->
       previewers w !! p = Some pv ->
       int_of_float (value (step_spinner d)) = Return step ->
       1 <= step ->
       exists w' every,
         EchonestExtension.__compute_markers w = (Return tt, w')
         /\ (forall k, every !! k = beats t !! (k * Z.to_nat step)%nat)
         /\ previewers w' !! p
            = Some (with_markers
                      (if bool_decide (active_id (range_combo d) = Some "full")
                       then map (fun m => PrimFloat.div (start m) (duration t)) every
                       else [])
                      pv)
         /\ forall a, waveform_area <$> builders w !! darea pv = Some a ->
                      waveform_area <$> builders w' !! darea pv = Some (queue_draw a)).
Proof.
  intros Hclaim.
  destruct (Hclaim Demo.dialog_open_on_an_instant 0%nat Demo.song_dialog Demo.instant 0%nat
              (Previewer 0 Demo.peaks 0.75 (PyTrack Demo.instant) None [0.5%float]) 2)
    as (w' & every & Hrun & _); [reflexivity..|lia|].
  discriminate Hrun.
Qed.

Example compute_markers_on_the_open_dialog :
  __markers <$> previewers
    (EchonestExtension.__compute_markers Demo.dialog_open).2 !! 0%nat
  = Some [0; 0.5]%float.
Proof. reflexivity. Qed.

(** * More properties of the module *)

(** ** Relations along a computation *)

Section Along.
Variable R : world -> world -> Prop.
Hypothesis R_trans : forall w1 w2 w3, R w1 w2 -> R w2 w3 -> R w1 w3.

(** The rest of a computation may be looked at from the world that its
    first action left. *)
Lemma bind_related {A B} (c : M A) (k : A -> M B) w :
  R w (c w).2 ->
  (forall a w1, c w = (Return a, w1) -> R w1 (k a w1).2) ->
  R w (bind c k w).2.
Proof.
  intros Hc Hk. unfold bind. destruct (c w) as [[a|e] w1] eqn:Hrun; cbn [snd] in *.
  - eapply R_trans; [exact Hc|]. by apply Hk.
  - exact Hc.
Qed.

End Along.

(** ** The GUI *)

Lemma same_gui_refl w : same_gui w w.
Proof. done. Qed.

Lemma same_gui_trans w1 w2 w3 : same_gui w1 w2 -> same_gui w2 w3 -> same_gui w1 w3.
Proof. unfold same_gui. intros (? & ? & ? & ?) (? & ? & ? & ?). repeat split; congruence. Qed.

Lemma same_gui_modify f :
  (forall w, same_gui w (f w)) -> preserves same_gui (modify f).
Proof. intros Hf w. apply Hf. Qed.

Ltac solve_same_gui :=
  repeat preserves_step same_gui_refl same_gui_trans
    ltac:(apply same_gui_modify; intros []; done).

Section Gui.
Context `{Host}.

Lemma same_gui_load_from_cache filename :
  preserves same_gui (EchonestExtension.__load_from_cache filename).
Proof.
  unfold EchonestExtension.__load_from_cache, call_hash_file, call_open_rb, log.
  solve_same_gui.
Qed.

Lemma same_gui_save_to_cache filename track :
  preserves same_gui (EchonestExtension.__save_to_cache filename track).
Proof.
  unfold EchonestExtension.__save_to_cache, call_hash_file, call_open_wb,
    call_pickle_dump, log.
  solve_same_gui.
Qed.

(** A callback for a builder that is not the current one returns at
    once. *)
Lemma display_track_analysis_stale track builder filename w :
  builder <> __current_builder (self w) ->
  EchonestExtension.__display_track_analysis track builder filename w = (Return tt, w).
Proof.
  intros Hstale. unfold EchonestExtension.__display_track_analysis.
  run. by rewrite bool_decide_eq_false_2.
Qed.

(** Until its callback, the worker leaves the GUI alone: it raises
    before the callback, or it is the callback on some object. *)
Lemma analysis_worker_until_callback filename callback data w :
  exists w2,
    same_gui w w2
    /\ ((exists e, EchonestExtension.analysis_worker filename callback data w
                   = (Raise e, w2))
        \/ exists track,
             EchonestExtension.analysis_worker filename callback data w
             = match callback with
               | Some cb => EchonestExtension.call cb track data w2
               | None => (Return tt, w2)
               end).
Proof.
  rewrite analysis_worker_unfold.
  pose proof (same_gui_load_from_cache filename w) as Hw1.
  destruct (EchonestExtension.__load_from_cache filename w) as [[loaded|e] w1];
    cbn [snd] in Hw1; [|exists w1; split; [done|left; by exists e]].
  unfold after_load.
  match goal with
  | |- context [bind ?c ?k w1] =>
      assert (Hfetch : preserves same_gui c);
      [ pose proof (same_gui_save_to_cache filename);
        unfold call_track_from_filename, call_get_analysis, log;
        solve_same_gui; auto
      | specialize (Hfetch w1);
        destruct (c w1) as [[track|e] w2] eqn:Hrun; cbn [snd] in Hfetch;
        [ rewrite (run_bind_return c k _ _ _ Hrun)
        | rewrite (run_bind_raise c k _ _ _ Hrun) ] ]
  end.
  - exists w2. split; [by eapply same_gui_trans|]. right. exists track.
    by destruct callback.
  - exists w2. split; [by eapply same_gui_trans|]. left. by exists e.
Qed.

End Gui.

(** X1. An analysis without a callback, or whose callback is for a
    builder that is not the current one (the dialog was answered, or
    another one was opened), downloads and caches what it has to and
    leaves the extension, the dialogs, the previewers and the threads as
    they were. *)
Theorem analysis_worker_reaches_gui_through_live_callback_only `{Host}
  filename callback data w :
  (callback = None \/ data = None
   \/ exists builder name,
        data = Some (builder, name) /\ builder <> __current_builder (self w)) ->
  same_gui w (EchonestExtension.analysis_worker filename callback data w).2.
Proof.
  intros Hdead.
  destruct (analysis_worker_until_callback filename callback data w)
    as (w2 & Hgui & [[e ->] | [track ->]]); [done|].
  destruct callback as [[]|]; [|done].
  destruct data as [[builder name]|]; [|done].
  cbn [EchonestExtension.call]. unfold bind. rewrite log_run.
  rewrite display_track_analysis_stale; [by destruct w2|].
  destruct Hdead as [|[|(? & ? & [= <- <-] & Hstale)]]; [done..|].
  destruct Hgui as (Hself & _). cbn. by rewrite Hself.
Qed.

Lemma analysis_worker_reaches_gui_through_live_callback_only_witness :
  same_gui Demo.dialog_closed
    (EchonestExtension.analysis_worker (H := Demo.host) "/media/song.ogg"
       (Some display_track_analysis_cb) (Some (Some 0%nat, "/media/song.ogg"))
       Demo.dialog_closed).2.
Proof.
  apply (analysis_worker_reaches_gui_through_live_callback_only (H := Demo.host)).
  right. right. exists (Some 0%nat), "/media/song.ogg". split; [reflexivity|].
  vm_compute. discriminate.
Defined.

(** ** The metadata list *)

(** The order of the names. *)
Lemma string_compare_trans a b c :
  String.compare a b <> Gt -> String.compare b c <> Gt -> String.compare a c <> Gt.
Proof.
  revert b c. induction a as [|x a IH]; intros [|y b] [|z c]; simpl; try done.
  unfold Ascii.compare.
  destruct (N.compare_spec (N_of_ascii x) (N_of_ascii y)) as [Hxy|Hxy|Hxy];
    destruct (N.compare_spec (N_of_ascii y) (N_of_ascii z)) as [Hyz|Hyz|Hyz];
    try done.
  - rewrite Hxy, Hyz, N.compare_refl. apply IH.
  - intros _ _. rewrite Hxy. apply N.compare_lt_iff in Hyz. by rewrite Hyz.
  - intros _ _. rewrite <- Hyz. apply N.compare_lt_iff in Hxy. by rewrite Hxy.
  - intros _ _. assert (Hxz : (N_of_ascii x < N_of_ascii z)%N) by lia.
    apply N.compare_lt_iff in Hxz. by rewrite Hxz.
Qed.

Lemma string_leb_trans a b c :
  String.leb a b = true -> String.leb b c = true -> String.leb a c = true.
Proof.
  unfold String.leb. intros Hab Hbc.
  pose proof (string_compare_trans a b c) as Htrans.
  destruct (String.compare a b), (String.compare b c), (String.compare a c);
    try done; exfalso; by apply Htrans.
Qed.

(** [sorted] is a sort by name. *)
Lemma insert_sorted_perm x l : insert_sorted x l ≡ₚ x :: l.
Proof.
  induction l as [|y l IH]; simpl; [done|].
  destruct (String.leb x.1 y.1); [done|]. by rewrite IH, Permutation_swap.
Qed.

Lemma sorted_perm items : sorted items ≡ₚ items.
Proof.
  induction items as [|x items IH]; simpl; [done|].
  by rewrite insert_sorted_perm, IH.
Qed.

Lemma insert_sorted_sorted x l :
  StronglySorted (fun a b => String.leb a.1 b.1 = true) l ->
  StronglySorted (fun a b => String.leb a.1 b.1 = true) (insert_sorted x l).
Proof.
  induction l as [|y l IH]; simpl; intros Hl.
  - by repeat constructor.
  - apply StronglySorted_inv in Hl as [Hl Hy].
    destruct (String.leb x.1 y.1) eqn:Hxy.
    + constructor; [by constructor|]. constructor; [done|].
      eapply Forall_impl; [exact Hy|]. intros z Hz. by eapply string_leb_trans.
    + constructor; [by apply IH|].
      rewrite insert_sorted_perm. constructor; [|done].
      destruct (String.leb_total x.1 y.1); [congruence|done].
Qed.

Lemma sorted_sorted items :
  StronglySorted (fun a b => String.leb a.1 b.1 = true) (sorted items).
Proof.
  induction items as [|x items IH]; simpl; [constructor|].
  by apply insert_sorted_sorted.
Qed.

Lemma StronglySorted_filter {A} (R : A -> A -> Prop) (P : A -> Prop)
  `{forall x, Decision (P x)} l :
  StronglySorted R l -> StronglySorted R (filter P l).
Proof.
  induction 1 as [|x l Hl IH Hx]; [constructor|].
  rewrite filter_cons. destruct (decide (P x)); [|done].
  constructor; [done|]. apply Forall_forall. intros y [_ Hy]%list_elem_of_filter.
  by eapply Forall_forall in Hx.
Qed.

Lemma insert_alter_same {A} (f : A -> A) (l : list A) i x :
  <[i:=x]> (alter f i l) = <[i:=x]> l.
Proof. revert i. induction l as [|y l IH]; intros [|i]; simpl; by f_equal. Qed.

Section MetadataList.
Context `{Host}.

(** The loop of [__fill_metadata_list] on any list of items, for the
    list box of builder [b]. *)
Lemma fill_metadata_list_loop b items : forall w d,
  builders w !! b = Some d ->
  let shown := filter (fun item => contains METADATA_BLACKLIST item.1 = false) items in
  let loop :=
    for_each items (fun '(name, value) =>
      if contains METADATA_BLACKLIST name then ret tt
      else
        let* text :=
          if contains LIST_TYPED_METADATA name then
            let* n := lift (len value) in
            ret ("Number of " +:+ name +:+ " : " +:+ pretty n)
          else ret (name +:+ " : " +:+ py_str value) in
        if contains LIST_TYPED_METADATA name then
          update_dialog b (with_metadata_list (fun rows => text :: rows))
        else
          update_dialog b (with_metadata_list (fun rows => rows ++ [text]))) in
  match comprehension
          (fun item => rbind (len item.2) (fun n => Return (count_row item.1 n)))
          (filter (fun item => contains LIST_TYPED_METADATA item.1 = true) shown) with
  | Return counts =>
      loop w =
        (Return tt,
         set_builders (fun bs =>
           <[b := with_metadata_list (fun rows =>
                    rev counts ++ rows
                    ++ map value_row
                         (filter (fun item => contains LIST_TYPED_METADATA item.1 = false)
                            shown)) d]> bs) w)
  | Raise e => (loop w).1 = Raise e
  end.
Proof.
  induction items as [|[name value] items IH]; intros w d Hd; cbv zeta.
  - cbn. unfold ret. f_equal. destruct w as [fs bs ps ts tr ext], d.
    unfold set_builders, with_metadata_list. cbn in *.
    rewrite app_nil_r. by rewrite list_insert_id.
  - cbn [for_each]. rewrite filter_cons. cbn [fst snd].
    destruct (contains METADATA_BLACKLIST name) eqn:Hblack.
    { rewrite decide_False by done. run. by apply IH. }
    rewrite decide_True by done. rewrite !filter_cons. cbn [fst snd].
    destruct (contains LIST_TYPED_METADATA name) eqn:Hlist.
    + rewrite decide_True by done. rewrite decide_False by done.
      cbn [comprehension snd fst].
      destruct (len value) as [n|e] eqn:Hlen; cbn [rbind].
      2:{ by unfold bind, lift. }
      unfold bind at 1 2 3, lift at 1, ret at 1.
      unfold update_dialog at 1, modify at 1.
      fold (count_row name n).
      set (w1 := set_builders _ w).
      specialize (IH w1 (with_metadata_list (fun rows => count_row name n :: rows) d)).
      cbv zeta in IH.
      destruct (comprehension _ _) as [counts|e].
      * rewrite IH; [|by subst w1; cbn; rewrite list_lookup_alter_eq, Hd].
        f_equal. subst w1. destruct w as [fs bs ps ts tr ext], d.
        unfold set_builders, with_metadata_list. cbn.
        rewrite insert_alter_same. cbn [rev]. by rewrite <- !app_assoc.
      * apply IH. subst w1. cbn. by rewrite list_lookup_alter_eq, Hd.
    + rewrite decide_False by done. rewrite decide_True by done.
      unfold bind at 1 2, ret at 1.
      unfold update_dialog at 1, modify at 1.
      fold (value_row (name, value)).
      set (w1 := set_builders _ w).
      specialize (IH w1 (with_metadata_list
                           (fun rows => rows ++ [value_row (name, value)]) d)).
      cbv zeta in IH.
      destruct (comprehension _ _) as [counts|e].
      * rewrite IH; [|by subst w1; cbn; rewrite list_lookup_alter_eq, Hd].
        f_equal. subst w1. destruct w as [fs bs ps ts tr ext], d.
        unfold set_builders, with_metadata_list. cbn.
        rewrite insert_alter_same. by rewrite <- !app_assoc.
      * apply IH. subst w1. cbn. by rewrite list_lookup_alter_eq, Hd.
Qed.

End MetadataList.

(** X2. On a track, in the current dialog, [__fill_metadata_list]
    puts the rows "Number of name : n" of the attributes that hold a list
    above the rows that were there, the last name at the top, and the rows
    "name : value" of the other attributes below them, in the order of
    the names; nothing else changes.  When [len] raises on an attribute
    that should hold a list, the method raises that exception. *)
Theorem fill_metadata_list_rows `{Host} t w b d :
  __current_builder (self w) = Some b ->
  builders w !! b = Some d ->
  match count_rows t with
  | Return counts =>
      EchonestExtension.__fill_metadata_list (PyTrack t) w =
        (Return tt,
         set_builders (fun bs =>
           <[b := with_metadata_list
                    (fun rows => rev counts ++ rows ++ value_rows t) d]> bs) w)
  | Raise e => (EchonestExtension.__fill_metadata_list (PyTrack t) w).1 = Raise e
  end.
Proof.
  intros Hb Hd. unfold EchonestExtension.__fill_metadata_list.
  run. rewrite Hb. run.
  rewrite (run_bind_return _ _ _ _ _ (get_dialog_run _ _ _ Hd)).
  cbn [getattr]. run.
  exact (fill_metadata_list_loop b (sorted (__dict__ t)) w d Hd).
Qed.

Lemma fill_metadata_list_rows_witness :
  EchonestExtension.__fill_metadata_list (H := Demo.host) (PyTrack Demo.analysed)
    Demo.dialog_open
  = (Return tt,
     set_builders (fun bs =>
       <[0%nat := with_metadata_list
                    (fun rows => ["Number of beats : 4"; "Number of bars : 2"] ++ rows
                                 ++ ["artist : Moondog"; "duration : 8.0"; "title : Lament"])
                    Demo.song_dialog]> bs) Demo.dialog_open).
Proof.
  exact (fill_metadata_list_rows (H := Demo.host) Demo.analysed Demo.dialog_open 0%nat
           Demo.song_dialog eq_refl eq_refl).
Defined.

Lemma comprehension_returns {A B} (f : A -> result B) l ys :
  comprehension f l = Return ys -> Forall2 (fun x y => f x = Return y) l ys.
Proof.
  revert ys. induction l as [|x l IH]; intros ys; cbn [comprehension].
  - intros [= <-]. constructor.
  - destruct (f x) as [y|e] eqn:Hx; [|done].
    destruct (comprehension f l) as [ys'|e]; [|done].
    intros [= <-]. constructor; [done|]. by apply IH.
Qed.

Lemma filter_true_false {A} (f : A -> bool) (l : list A) :
  filter (fun x => f x = true) l ++ filter (fun x => f x = false) l ≡ₚ l.
Proof.
  induction l as [|x l IH]; [done|].
  rewrite !filter_cons. destruct (f x) eqn:Hx.
  - rewrite decide_True, decide_False by done. cbn. by rewrite IH.
  - rewrite decide_False, decide_True by done.
    by rewrite <- Permutation_middle, IH.
Qed.

(** X3. When [__fill_metadata_list] returns on a track, every attribute
    of the track whose name is not in the blacklist has got one row, and
    no other row was added: the rows above the old ones are the counts of
    the attributes that hold a list, the last name first, and the rows
    below are those of the other attributes, in the order of their
    names. *)
Theorem fill_metadata_list_shows_each_attribute_once `{Host} t w w' b d :
  __current_builder (self w) = Some b ->
  builders w !! b = Some d ->
  EchonestExtension.__fill_metadata_list (PyTrack t) w = (Return tt, w') ->
  exists d' counted others tops,
    builders w' !! b = Some d'
    /\ metadata_list d' = rev tops ++ metadata_list d ++ map value_row others
    /\ Forall2 (fun item row =>
                  exists n, len item.2 = Return n /\ row = count_row item.1 n)
         counted tops
    /\ counted ++ others
       ≡ₚ filter (fun item => contains METADATA_BLACKLIST item.1 = false) (__dict__ t)
    /\ Forall (fun item => contains LIST_TYPED_METADATA item.1 = true) counted
    /\ Forall (fun item => contains LIST_TYPED_METADATA item.1 = false) others
    /\ StronglySorted (fun a b => String.leb a.1 b.1 = true) counted
    /\ StronglySorted (fun a b => String.leb a.1 b.1 = true) others.
Proof.
  intros Hb Hd Hrun.
  assert (Hloop :
            match count_rows t with
            | Return counts =>
                EchonestExtension.__fill_metadata_list (PyTrack t) w =
                  (Return tt,
                   set_builders (fun bs =>
                     <[b := with_metadata_list
                              (fun rows => rev counts ++ rows ++ value_rows t) d]> bs) w)
            | Raise e => (EchonestExtension.__fill_metadata_list (PyTrack t) w).1 = Raise e
            end).
  { unfold EchonestExtension.__fill_metadata_list.
    run. rewrite Hb. run.
    rewrite (run_bind_return _ _ _ _ _ (get_dialog_run _ _ _ Hd)).
    cbn [getattr]. run.
    exact (fill_metadata_list_loop b (sorted (__dict__ t)) w d Hd). }
  destruct (count_rows t) as [counts|e] eqn:Hcounts;
    [|rewrite Hrun in Hloop; discriminate Hloop].
  rewrite Hloop in Hrun. injection Hrun as <-.
  eexists _, _, _, counts. split.
  { cbn [builders set_builders]. apply list_lookup_insert_eq. by eapply lookup_lt_Some. }
  split; [reflexivity|]. split.
  { apply comprehension_returns in Hcounts.
    eapply Forall2_impl; [exact Hcounts|]. intros item row. cbn beta.
    destruct (len item.2) as [n|e]; [|done]. intros [= <-]. by exists n. }
  assert (Hsorted : StronglySorted (fun a b => String.leb a.1 b.1 = true) (listed t))
    by apply StronglySorted_filter, sorted_sorted.
  split; [|split; [|split; [|split]]].
  - rewrite (filter_true_false (fun item => contains LIST_TYPED_METADATA item.1)).
    unfold listed. by rewrite sorted_perm.
  - apply Forall_forall. by intros item [Hitem _]%list_elem_of_filter.
  - apply Forall_forall. by intros item [Hitem _]%list_elem_of_filter.
  - by apply StronglySorted_filter.
  - by apply StronglySorted_filter.
Qed.

Lemma fill_metadata_list_shows_each_attribute_once_witness :
  let w' := (EchonestExtension.__fill_metadata_list (H := Demo.host)
               (PyTrack Demo.analysed) Demo.dialog_waiting).2 in
  exists d' counted others tops,
    builders w' !! 0%nat = Some d'
    /\ metadata_list d' = rev tops ++ [] ++ map (value_row (H := Demo.host)) others
    /\ Forall2 (fun item row =>
                  exists n, len item.2 = Return n /\ row = count_row item.1 n)
         counted tops
    /\ counted ++ others
       ≡ₚ filter (fun item => contains METADATA_BLACKLIST item.1 = false)
            (__dict__ Demo.analysed)
    /\ Forall (fun item => contains LIST_TYPED_METADATA item.1 = true) counted
    /\ Forall (fun item => contains LIST_TYPED_METADATA item.1 = false) others
    /\ StronglySorted (fun a b => String.leb a.1 b.1 = true) counted
    /\ StronglySorted (fun a b => String.leb a.1 b.1 = true) others.
Proof.
  apply (fill_metadata_list_shows_each_attribute_once (H := Demo.host) Demo.analysed
           Demo.dialog_waiting _ 0%nat
           (with_transient_for_gui
              (with_step_spinner (set_range 1 100) (clip_dialog_ui (Host := Demo.host))))).
  - reflexivity.
  - reflexivity.
  - vm_compute. reflexivity.
Defined.

(** ** The callback on what the cache may hold *)

Section Callback.
Context `{Host}.

(** Only a track has the attributes that the dialog shows. *)
Lemma display_track_analysis_non_track obj builder filename w :
  (forall t, obj <> PyTrack t) ->
  builder = __current_builder (self w) ->
  EchonestExtension.__display_track_analysis obj builder filename w
    = (Raise AttributeError, set_self (with_current_track obj) w).
Proof.
  intros Hobj Hbuilder. unfold EchonestExtension.__display_track_analysis.
  run. rewrite bool_decide_eq_true_2 by done. cbn [negb].
  unfold update_self. run.
  apply run_bind_raise. unfold EchonestExtension.__fill_metadata_list.
  run. cbn [self set_self with_current_track __current_builder].
  destruct (__current_builder (self w)) as [b|]; [|done].
  run. unfold get_dialog. unfold bind at 1 2, get at 1.
  cbn [builders set_self].
  destruct (builders w !! b) as [d|]; [|done].
  cbn [deref]. unfold ret at 1.
  destruct obj as [| | |t]; try done. by destruct (Hobj t).
Qed.

(** Whether [AudioPreviewer(...)] raises, and what, depends on the
    files only. *)
Lemma init_outcome track track' darea darea' filename w w' e :
  files w' = files w ->
  (AudioPreviewer.__init__ track darea filename w).1 = Raise e ->
  (AudioPreviewer.__init__ track' darea' filename w').1 = Raise e.
Proof. rewrite !init_run. intros ->. cbv zeta. by repeat case_match. Qed.

End Callback.

(** *** Rows only *)

Lemma same_but_rows_refl d : same_but_rows d d.
Proof. done. Qed.

Lemma rows_only_refl w : rows_only w w.
Proof.
  repeat split. apply Forall_Forall2_diag, Forall_forall. intros d _. done.
Qed.

Lemma rows_only_trans w1 w2 w3 : rows_only w1 w2 -> rows_only w2 w3 -> rows_only w1 w3.
Proof.
  intros (? & ? & ? & ? & ? & H12) (? & ? & ? & ? & ? & H23).
  repeat split; try congruence.
  eapply Forall2_trans; [|exact H12|exact H23].
  unfold same_but_rows. intros; congruence.
Qed.

Lemma rows_only_update_rows b f :
  preserves rows_only (update_dialog b (with_metadata_list f)).
Proof.
  intros w. cbn. repeat split.
  apply Forall2_alter_r; [apply rows_only_refl|].
  intros d d' _ _ Hd. by destruct d, d'.
Qed.

Lemma rows_only_intro w w' :
  files w' = files w -> builders w' = builders w ->
  previewers w' = previewers w -> threads w' = threads w ->
  __audio_previewer (self w') = __audio_previewer (self w) ->
  __current_builder (self w') = __current_builder (self w) ->
  rows_only w w'.
Proof.
  intros ? Hb ? ? ? ?. repeat split; try done. rewrite Hb.
  apply Forall_Forall2_diag, Forall_forall. intros d _. done.
Qed.

Lemma rows_only_modify f :
  (forall w, files (f w) = files w /\ builders (f w) = builders w
             /\ previewers (f w) = previewers w /\ threads (f w) = threads w
             /\ __audio_previewer (self (f w)) = __audio_previewer (self w)
             /\ __current_builder (self (f w)) = __current_builder (self w)) ->
  preserves rows_only (modify f).
Proof.
  intros Hf w. destruct (Hf w) as (? & ? & ? & ? & ? & ?). by apply rows_only_intro.
Qed.

Ltac solve_rows_only :=
  repeat preserves_step rows_only_refl rows_only_trans
    ltac:(first [ apply rows_only_update_rows
                | apply rows_only_modify; intros []; done ]).

Section MissingWaveform.
Context `{Host}.

Lemma rows_only_fill_metadata_list track :
  preserves rows_only (EchonestExtension.__fill_metadata_list track).
Proof.
  unfold EchonestExtension.__fill_metadata_list, get_dialog.
  solve_rows_only.
Qed.

End MissingWaveform.

(** X4. When the analysis cache file of a media file unpickles to
    an object that is true and is no track (a list of peaks, a number),
    the worker does not ask the service: it calls the callback with that
    object, and a callback for the current builder makes the object the
    current track and raises AttributeError. *)
Theorem analysis_worker_on_a_cached_non_track `{Host} filename name obj w w1 :
  EchonestExtension.__load_from_cache filename w = (Return obj, w1) ->
  truthy obj = true ->
  (forall t, obj <> PyTrack t) ->
  let data := Some (__current_builder (self w), name) in
  EchonestExtension.analysis_worker filename (Some display_track_analysis_cb) data w
  = (Raise AttributeError,
     set_self (with_current_track obj)
       (emit [EvCallback display_track_analysis_cb obj data] w1)).
Proof.
  intros Hload Htrue Hobj data. rewrite analysis_worker_unfold, Hload.
  unfold after_load. rewrite Htrue. cbn [negb]. run.
  cbn [EchonestExtension.call data]. unfold bind. rewrite log_run.
  apply display_track_analysis_non_track; [done|].
  apply load_from_cache_returns in Hload as (h & _ & ->). by destruct w.
Qed.

Lemma analysis_worker_on_a_cached_non_track_witness :
  let data := Some (Some 0%nat, "/media/song.ogg") in
  EchonestExtension.analysis_worker (H := Demo.host) "/media/song.ogg"
    (Some display_track_analysis_cb) data Scenes.peaks_as_analysis
  = (Raise AttributeError,
     set_self (with_current_track (PyList Demo.peaks))
       (emit [EvHashFile "/media/song.ogg"; EvOpen Demo.analysis_file Rb;
              EvCallback display_track_analysis_cb (PyList Demo.peaks) data]
          Scenes.peaks_as_analysis)).
Proof.
  apply (analysis_worker_on_a_cached_non_track (H := Demo.host) "/media/song.ogg"
           "/media/song.ogg" (PyList Demo.peaks) Scenes.peaks_as_analysis
           (emit [EvHashFile "/media/song.ogg"; EvOpen Demo.analysis_file Rb]
              Scenes.peaks_as_analysis)).
  - vm_compute. reflexivity.
  - reflexivity.
  - intros t. discriminate.
Defined.

(** X5. When the previewer cannot be built for the file (its
    waveform is not cached, cannot be read, or holds no peak), the
    callback for the current builder raises; the track has become the
    current track, and nothing else has changed but rows of the metadata
    list: no previewer, no draw handler, no widget made sensitive. *)
Theorem display_track_analysis_needs_the_waveform `{Host}
  track builder filename darea w e0 :
  builder = __current_builder (self w) ->
  (AudioPreviewer.__init__ track darea filename w).1 = Raise e0 ->
  exists e w',
    EchonestExtension.__display_track_analysis track builder filename w = (Raise e, w')
    /\ rows_only w w' /\ __current_track (self w') = track.
Proof.
  intros Hbuilder Hinit. unfold EchonestExtension.__display_track_analysis.
  run. rewrite bool_decide_eq_true_2 by done. cbn [negb].
  unfold update_self. run.
  set (w1 := set_self (with_current_track track) w).
  assert (H1 : rows_only w w1) by (by apply rows_only_intro).
  pose proof (rows_only_fill_metadata_list track w1) as H2.
  pose proof (same_self_fill_metadata_list track w1) as Hself.
  unfold same_self in Hself.
  destruct (EchonestExtension.__fill_metadata_list track w1) as [[[]|e] w2] eqn:Hfill;
    cbn [snd] in *.
  2:{ exists e, w2. split; [exact (run_bind_raise _ _ _ _ _ Hfill)|].
      split; [exact (rows_only_trans _ _ _ H1 H2)|]. by rewrite Hself. }
  erewrite run_bind_return by exact Hfill.
  assert (H12 : rows_only w w2) by exact (rows_only_trans _ _ _ H1 H2).
  assert (Ht : __current_track (self w2) = track) by (by rewrite Hself).
  unfold EchonestExtension.__prepare_beat_matcher. run.
  destruct (__current_builder (self w2)) as [b|]; [|by exists AttributeError, w2].
  run. unfold get_dialog at 1. unfold bind at 1 2, get at 1.
  destruct (builders w2 !! b) as [d|]; [|by exists AttributeError, w2].
  cbn [deref]. unfold ret at 1.
  pose proof (init_outcome track track darea b filename w w2 e0) as Hout.
  destruct (AudioPreviewer.__init__ track b filename w2) as [[p|e] w3] eqn:Hrun.
  { destruct H12 as (Hf & _). by specialize (Hout Hf Hinit). }
  apply init_raises in Hrun as Hw3. destruct Hw3 as [evs ->].
  exists e, (emit evs w2). split; [exact (run_bind_raise _ _ _ _ _ Hrun)|].
  split; [|done].
  eapply rows_only_trans; [exact H12|]. by apply rows_only_intro.
Qed.

Lemma display_track_analysis_needs_the_waveform_witness :
  exists e w',
    EchonestExtension.__display_track_analysis (H := Demo.host) (PyTrack Demo.analysed)
      (Some 0%nat) "/media/song.ogg" Scenes.no_wave = (Raise e, w')
    /\ rows_only Scenes.no_wave w' /\ __current_track (self w') = PyTrack Demo.analysed.
Proof.
  apply (display_track_analysis_needs_the_waveform (H := Demo.host) (PyTrack Demo.analysed)
           (Some 0%nat) "/media/song.ogg" 0%nat Scenes.no_wave (IOError ENOENT)).
  - reflexivity.
  - vm_compute. reflexivity.
Defined.

(** ** The markers before there is a previewer *)

Lemma label_only_intro w w' :
  files w' = files w -> previewers w' = previewers w -> threads w' = threads w ->
  self w' = self w -> trace w' = trace w ->
  Forall2 same_but_label (builders w) (builders w') ->
  label_only w w'.
Proof. by repeat split. Qed.

Lemma label_only_refl w : label_only w w.
Proof.
  apply label_only_intro; try done.
  apply Forall_Forall2_diag, Forall_forall. intros d _. done.
Qed.

Lemma label_only_set_label b text w :
  label_only w (set_builders (alter (with_beat_label text) b) w).
Proof.
  apply label_only_intro; try done. cbn.
  apply Forall2_alter_r; [apply label_only_refl|].
  intros d d' _ _ Hd. by destruct d, d'.
Qed.

(** X6. While the extension has no previewer (no analysis has been
    displayed yet), [__compute_markers], and so a change of the spinner or
    of a combo, raises; what it has changed by then is at most the label
    of the step. *)
Theorem compute_markers_needs_a_previewer w :
  __audio_previewer (self w) = None ->
  exists e w',
    EchonestExtension._matching_changed_cb w = (Raise e, w') /\ label_only w w'.
Proof.
  intros Hnone. unfold EchonestExtension._matching_changed_cb, EchonestExtension.__compute_markers. run.
  destruct (__current_builder (self w)) as [b|];
    [|exists AttributeError, w; split; [done|apply label_only_refl]].
  run. unfold get_dialog at 1. unfold bind at 1 2, get at 1.
  destruct (builders w !! b) as [d|];
    [|exists AttributeError, w; split; [done|apply label_only_refl]].
  cbn [deref]. unfold ret at 1.
  destruct (int_of_float (value (step_spinner d))) as [step|e];
    [|exists e, w; split; [done|apply label_only_refl]].
  run.
  set (text := if step =? 1 then "beat" else "beats").
  set (w1 := set_builders (alter (with_beat_label text) b) w).
  erewrite run_bind_return; cycle 1.
  { instantiate (1 := w1). instantiate (1 := tt). subst w1 text.
    by destruct (step =? 1). }
  pose proof (label_only_set_label b text w) as Hw1. fold w1 in Hw1.
  match goal with
  | |- exists e w', bind ?c _ _ = _ /\ _ =>
      assert (Hmarkers : exists r, c w1 = (r, w1))
  end.
  { destruct (bool_decide _); [|by eexists].
    unfold bind, get, lift. repeat case_match; simplify_eq; by eexists. }
  destruct Hmarkers as [[markers|e] Hmarkers].
  - erewrite run_bind_return by exact Hmarkers. run.
    replace (__audio_previewer (self w1)) with (@None nat) by done.
    by exists AttributeError, w1.
  - exists e, w1. split; [|done]. exact (run_bind_raise _ _ _ _ _ Hmarkers).
Qed.

Lemma compute_markers_needs_a_previewer_witness :
  exists e w',
    EchonestExtension._matching_changed_cb Demo.dialog_waiting
      = (Raise e, w')
    /\ label_only Demo.dialog_waiting w'.
Proof.
  apply (compute_markers_needs_a_previewer Demo.dialog_waiting).
  reflexivity.
Defined.

(** ** Drawing again *)

Lemma alter_idemp {A} (f : A -> A) (l : list A) i :
  (forall x, f (f x) = f x) -> alter f i (alter f i l) = alter f i l.
Proof.
  intros Hf. revert i. induction l as [|y l IH]; intros [|i]; f_equal/=; auto.
Qed.

(** X7. After [set_markers], a draw paints the lines of these
    markers and no other line, and a second draw on an area of the same
    size makes the same calls and changes nothing more. *)
Theorem draw_cb_after_set_markers self darea context context' markers w pv d :
  previewers w !! self = Some pv ->
  builders w !! darea = Some d ->
  let width := alloc_width (waveform_area d) in
  let height := alloc_height (waveform_area d) in
  exists ops w2,
    (AudioPreviewer.set_markers self markers ;;
     AudioPreviewer.draw_cb self darea context) w = (Return (context ++ ops), w2)
    /\ stroked ops None [] = map (marker_line width height) markers
    /\ AudioPreviewer.draw_cb self darea context' w2 = (Return (context' ++ ops), w2).
Proof.
  intros Hpv Hd width height.
  unfold AudioPreviewer.set_markers, update_previewer. run.
  set (w1 := set_previewers (alter (with_markers markers) self) w).
  assert (Hpv1 : previewers w1 !! self = Some (with_markers markers pv)).
  { subst w1. cbn. by rewrite list_lookup_alter_eq, Hpv. }
  rewrite (draw_cb_run self darea context w1 _ d Hpv1 Hd). cbv zeta.
  eexists _, _. split; [reflexivity|]. split.
  - unfold drawing. cbn [app stroked __markers with_markers].
    apply (stroked_marker_lines _ _ _ None []).
  - match goal with |- _ ?x = _ => set (w2 := x) end.
    assert (Hpv2 : previewers w2 !! self
                   = Some (with_surface
                             (Some (fill_surface (__peaks pv) width height (__max_peak pv)))
                             (with_markers markers pv))).
    { subst w2. cbn [previewers set_previewers]. by rewrite list_lookup_alter_eq, Hpv1. }
    rewrite (draw_cb_run self darea context' w2 _ d Hpv2 Hd). cbv zeta.
    f_equal. subst w2. unfold set_previewers. cbn. f_equal.
    fold width height. by rewrite alter_idemp.
Qed.

Lemma draw_cb_after_set_markers_witness :
  exists ops w2,
    (AudioPreviewer.set_markers 0%nat [0.5%float] ;;
     AudioPreviewer.draw_cb 0%nat 0%nat []) Demo.dialog_open = (Return ([] ++ ops), w2)
    /\ stroked ops None [] = map (marker_line 640 120) [0.5%float]
    /\ AudioPreviewer.draw_cb 0%nat 0%nat [paint] w2 = (Return ([paint] ++ ops), w2).
Proof.
  exact (draw_cb_after_set_markers 0%nat 0%nat [] [paint] [0.5%float]
           Demo.dialog_open Demo.song_previewer Demo.song_dialog eq_refl eq_refl).
Defined.

(** ** The cache after a run of the worker *)

(** A run that ended before its callback has traced no callback. *)
Ltac ended_early Hfar :=
  let evs := fresh "evs" in
  let Htrace := fresh "Htrace" in
  let Hcalled := fresh "Hcalled" in
  destruct Hfar as [Hfar | (evs & Htrace & Hcalled)]; [discriminate Hfar|];
  cbn [snd trace emit set_trace set_files] in Htrace;
  rewrite <- ?app_assoc in Htrace;
  apply app_inv_head in Htrace; subst evs;
  rewrite ?existsb_app in Hcalled; cbn in Hcalled;
  repeat match goal with
         | Hno : existsb is_callback _ = false |- _ => rewrite Hno in Hcalled
         end;
  discriminate Hcalled.

Section Warm.
Context `{Host}.

Lemma warm_load filename w :
  warm (files w) filename ->
  exists cached h,
    EchonestExtension.__load_from_cache filename w
      = (Return cached, emit [EvHashFile filename; EvOpen (analysis_path h) Rb] w)
    /\ truthy cached = true.
Proof.
  intros (h & cached & Hh & Hread & Htrue). exists cached, h.
  rewrite load_from_cache_run, Hh. cbv zeta. by rewrite Hread.
Qed.

Lemma analysis_worker_on_a_warm_cache filename callback data w :
  warm (files w) filename ->
  exists cached w1 evs,
    EchonestExtension.__load_from_cache filename w = (Return cached, w1)
    /\ truthy cached = true
    /\ trace (EchonestExtension.analysis_worker filename callback data w).2
       = trace w1 ++ evs
    /\ existsb is_network evs = false /\ existsb is_cache_write evs = false.
Proof.
  intros (cached & h & Hload & Htrue)%warm_load.
  rewrite analysis_worker_unfold, Hload.
  destruct (after_load_hit filename callback data cached
              (emit [EvHashFile filename; EvOpen (analysis_path h) Rb] w) Htrue)
    as (_ & evs & Htrace & Hnet & Hwrite).
  eexists cached, _, evs. split; [reflexivity|]. done.
Qed.

Lemma after_load_miss_warms filename callback data loaded w w1 h evs1 :
  truthy loaded = false ->
  hash_file filename = Return h ->
  w1 = emit evs1 w ->
  existsb is_callback evs1 = false ->
  (forall t t' payload,
     track_from_filename filename = Return t -> get_analysis t = Return t' ->
     pickle_dump (PyTrack t') = Return payload ->
     pickle_load payload = Return (PyTrack t')) ->
  let out := after_load filename callback data loaded w1 in
  (out.1 = Return tt
   \/ exists evs, trace out.2 = trace w ++ evs /\ existsb is_callback evs = true) ->
  warm (files out.2) filename.
Proof.
  intros Hfalse Hh -> Hevs1 Hpickle. cbv zeta.
  rewrite after_load_miss_run by done.
  destruct (track_from_filename filename) as [t|e] eqn:Ht;
    [|intros Hfar; ended_early Hfar].
  cbv zeta.
  destruct (get_analysis t) as [t'|e] eqn:Ht'; [|intros Hfar; ended_early Hfar].
  rewrite save_to_cache_run, Hh. cbv zeta.
  destruct (open_wb _ (analysis_path h)) as [fs|e] eqn:Hopen;
    [|intros Hfar; ended_early Hfar].
  destruct (pickle_dump (PyTrack t')) as [payload|e] eqn:Hdump;
    [|intros Hfar; ended_early Hfar].
  intros _.
  match goal with
  | |- warm (files (_ ?w3).2) _ =>
      destruct (callback_offline callback (PyTrack t') data w3) as [Hfiles _]
  end.
  cbv zeta in Hfiles. rewrite Hfiles. cbn [files set_files].
  exists h, (PyTrack t'). split; [done|]. split; [|done].
  rewrite (open_wb_then_read _ _ _ _ Hopen). cbn [rbind]. by eapply Hpickle.
Qed.

Lemma analysis_worker_warms filename callback data w :
  (forall t t' payload,
     track_from_filename filename = Return t -> get_analysis t = Return t' ->
     pickle_dump (PyTrack t') = Return payload ->
     pickle_load payload = Return (PyTrack t')) ->
  let first := EchonestExtension.analysis_worker filename callback data w in
  (first.1 = Return tt
   \/ exists evs, trace first.2 = trace w ++ evs /\ existsb is_callback evs = true) ->
  warm (files first.2) filename.
Proof.
  intros Hpickle. cbv zeta. rewrite analysis_worker_unfold, load_from_cache_run.
  destruct (hash_file filename) as [h|e] eqn:Hh; [|intros Hfar; ended_early Hfar].
  cbv zeta.
  destruct (rbind _ _) as [v|e] eqn:Hread.
  - destruct (truthy v) eqn:Htrue.
    + intros _.
      destruct (after_load_hit filename callback data v
                  (emit [EvHashFile filename; EvOpen (analysis_path h) Rb] w) Htrue)
        as (Hfiles & _).
      cbv zeta in Hfiles. rewrite Hfiles. by exists h, v.
    + by eapply (after_load_miss_warms _ _ _ _ w).
  - destruct (isinstance_IOError e); [|intros Hfar; ended_early Hfar].
    by eapply (after_load_miss_warms _ _ _ _ w).
Qed.

End Warm.

(** X8. After a run of the worker that returned, or that got as far
    as calling its callback (whatever the callback did then), the
    analysis cache of the file holds an object that is true, so that the
    next run for the file asks nothing of the service and writes no file;
    [pickle] is assumed to give back the analysis that it has dumped. *)
Theorem analysis_worker_leaves_the_cache_warm `{Host}
  filename callback data callback' data' w :
  let first := EchonestExtension.analysis_worker filename callback data w in
  (first.1 = Return tt
   \/ exists evs, trace first.2 = trace w ++ evs /\ existsb is_callback evs = true) ->
  (forall t t' payload,
     track_from_filename filename = Return t -> get_analysis t = Return t' ->
     pickle_dump (PyTrack t') = Return payload ->
     pickle_load payload = Return (PyTrack t')) ->
  exists cached w1 evs,
    EchonestExtension.__load_from_cache filename first.2 = (Return cached, w1)
    /\ truthy cached = true
    /\ trace (EchonestExtension.analysis_worker filename callback' data' first.2).2
       = trace w1 ++ evs
    /\ existsb is_network evs = false /\ existsb is_cache_write evs = false.
Proof.
  intros first Hfar Hpickle.
  apply analysis_worker_on_a_warm_cache. by apply analysis_worker_warms.
Qed.

Lemma analysis_worker_leaves_the_cache_warm_witness :
  let first :=
    EchonestExtension.analysis_worker (H := Demo.host) "/media/song.ogg"
      (Some display_track_analysis_cb) (Some (Some 0%nat, "/media/song.ogg"))
      Scenes.nothing_cached in
  first.1 = Raise (IOError ENOENT)
  /\ exists cached w1 evs,
       EchonestExtension.__load_from_cache (H := Demo.host) "/media/song.ogg" first.2
         = (Return cached, w1)
       /\ truthy cached = true
       /\ trace (EchonestExtension.analysis_worker (H := Demo.host) "/media/song.ogg"
                   None None first.2).2
          = trace w1 ++ evs
       /\ existsb is_network evs = false /\ existsb is_cache_write evs = false.
Proof.
  intros first. split; [vm_compute; reflexivity|].
  apply (analysis_worker_leaves_the_cache_warm (H := Demo.host) "/media/song.ogg"
           (Some display_track_analysis_cb) (Some (Some 0%nat, "/media/song.ogg"))
           None None Scenes.nothing_cached).
  - right. exists (trace first.2). split; vm_compute; reflexivity.
  - intros t t' payload _ [= <-] [= <-]. reflexivity.
Defined.

(** ** The dialog of a clip *)

Lemma dialog_frame_refl w : dialog_frame w w.
Proof. by split. Qed.

Lemma dialog_frame_trans w1 w2 w3 :
  dialog_frame w1 w2 -> dialog_frame w2 w3 -> dialog_frame w1 w3.
Proof. intros [? ?] [? ?]. split; [congruence|by etrans]. Qed.

Lemma dialog_frame_modify f :
  (forall w, length (builders (f w)) = length (builders w) /\ threads (f w) = threads w) ->
  preserves dialog_frame (modify f).
Proof. intros Hf w. destruct (Hf w) as [Hb Ht]. cbn. split; [done|by rewrite Ht]. Qed.

Ltac solve_dialog_frame :=
  repeat preserves_step dialog_frame_refl dialog_frame_trans
    ltac:(apply dialog_frame_modify; intros []; cbn; rewrite ?length_alter; done).

(** A loop of attempts returns. *)
Lemma for_each_attempt_returns {A B} (l : list A) (body : A -> M B) w :
  (for_each l (fun x => attempt (body x)) w).1 = Return tt.
Proof.
  revert w. induction l as [|x l IH]; intros w; [done|].
  cbn [for_each]. unfold bind at 1, attempt at 1. apply IH.
Qed.

Section ClipDialog.
Context `{Host}.

Lemma dialog_frame_analyse_track filename callback data :
  preserves dialog_frame (EchonestExtension.__analyse_track filename callback data).
Proof.
  intros w. rewrite analyse_track_run. cbn. split; [done|].
  by apply prefix_app_r.
Qed.

Lemma dialog_frame_init track darea filename :
  preserves dialog_frame (AudioPreviewer.__init__ track darea filename).
Proof.
  unfold AudioPreviewer.__init__, call_hash_file, call_open_rb, log, update_dialog.
  solve_dialog_frame.
Qed.

Lemma dialog_frame_compute_markers :
  preserves dialog_frame EchonestExtension.__compute_markers.
Proof.
  unfold EchonestExtension.__compute_markers, get_dialog, get_previewer,
    update_dialog, AudioPreviewer.set_markers, update_previewer.
  solve_dialog_frame.
Qed.

Lemma dialog_frame_display_track_analysis track builder filename :
  preserves dialog_frame
    (EchonestExtension.__display_track_analysis track builder filename).
Proof.
  pose proof dialog_frame_init. pose proof dialog_frame_compute_markers.
  unfold EchonestExtension.__display_track_analysis,
    EchonestExtension.__fill_metadata_list,
    EchonestExtension.__prepare_beat_matcher, get_dialog, update_dialog,
    update_self, AudioPreviewer.set_markers, update_previewer.
  solve_dialog_frame; auto.
Qed.

Lemma dialog_frame_analysis_worker filename callback data :
  preserves dialog_frame (EchonestExtension.analysis_worker filename callback data).
Proof.
  pose proof dialog_frame_display_track_analysis.
  unfold EchonestExtension.analysis_worker, EchonestExtension.__load_from_cache,
    EchonestExtension.__save_to_cache, EchonestExtension.call,
    call_hash_file, call_open_rb, call_open_wb, call_pickle_dump,
    call_track_from_filename, call_get_analysis, log.
  solve_dialog_frame; auto.
Qed.

Lemma dialog_frame_perform_handler c : preserves dialog_frame (perform_handler c).
Proof.
  pose proof dialog_frame_compute_markers.
  pose proof dialog_frame_display_track_analysis.
  pose proof dialog_frame_analysis_worker. pose proof dialog_frame_analyse_track.
  destruct c; cbn [perform_handler];
    unfold AudioPreviewer.draw_cb, get_dialog, get_previewer,
      EchonestExtension._matching_changed_cb, EchonestExtension.thread_run,
      EchonestExtension.__run_analysis_clicked_cb, AudioPreviewer.set_markers,
      update_previewer;
    solve_dialog_frame; auto.
Qed.

(** The dialog from the click to its destruction, whatever runs while
    it is open. *)
Lemma clip_dialog_run uri filename during w :
  filename_from_uri uri = Return filename ->
  let b := length (builders w) in
  let t := length (threads w) in
  exists w',
    perform (ClipDialog uri during) w = (Return tt, w')
    /\ __current_builder (self w') = None
    /\ length (builders w') = S b
    /\ (exists d, builders w' !! b = Some d /\ destroyed d = true)
    /\ threads w' !! t
       = Some (Thread filename (Some display_track_analysis_cb)
                 (Some (Some b, filename)) true true).
Proof.
  intros Huri b t. cbn [perform]. unfold EchonestExtension.__clip_dialog_cb.
  rewrite Huri. unfold update_self, update_dialog. run.
  cbn [self set_self set_builders with_current_builder __current_builder].
  fold b. run.
  cbn [self set_self set_builders with_current_builder __current_builder].
  run.
  erewrite run_bind_return; cycle 1.
  { erewrite run_bind_return by reflexivity. cbv beta. apply analyse_track_run. }
  cbn [self set_self set_builders with_current_builder __current_builder].
  match goal with
  | |- exists w', bind ?loop _ ?w4 = _ /\ _ =>
      pose proof (for_each_attempt_returns during perform_handler w4) as Hreturns;
      assert (Hframe : dialog_frame w4 (loop w4).2);
      [ apply (preserves_for_each _ dialog_frame_refl dialog_frame_trans);
        intros c; apply preserves_attempt, dialog_frame_perform_handler
      | destruct (loop w4) as [[[]|e] w5] eqn:Hloop; [|discriminate Hreturns] ]
  end.
  erewrite run_bind_return by exact Hloop. run.
  cbn [snd] in Hframe. destruct Hframe as [Hlength Hthreads].
  cbn [builders threads set_threads set_builders set_self] in Hlength, Hthreads.
  rewrite length_alter, length_alter, length_app, Nat.add_1_r in Hlength. fold b in Hlength.
  eexists. split; [reflexivity|]. split; [done|].
  cbn [builders threads set_builders set_self].
  split; [by rewrite length_alter|]. split.
  - destruct (lookup_lt_is_Some_2 (builders w5) b) as [d Hd]; [lia|].
    exists (with_destroyed d). split; [|done].
    by rewrite list_lookup_alter_eq, Hd.
  - eapply prefix_lookup_Some; [|exact Hthreads].
    by apply list_lookup_middle.
Qed.

End ClipDialog.

(** X9. "Echonest dialog" on a clip, with any handlers and threads
    running while the dialog is open, returns once the dialog is
    answered; then there is no current builder, the dialog that was made
    (one more than before) is destroyed, and the thread started for it
    asks for the file of the clip, to be displayed in that dialog.  When
    the URI of the clip is no file name, the exception leaves the
    handler and nothing has changed. *)
Theorem clip_dialog_from_click_to_destruction `{Host} uri during w :
  match filename_from_uri uri with
  | Raise e => perform (ClipDialog uri during) w = (Raise e, w)
  | Return filename =>
      let b := length (builders w) in
      exists w',
        perform (ClipDialog uri during) w = (Return tt, w')
        /\ __current_builder (self w') = None
        /\ length (builders w') = S b
        /\ (exists d, builders w' !! b = Some d /\ destroyed d = true)
        /\ threads w' !! length (threads w)
           = Some (Thread filename (Some display_track_analysis_cb)
                     (Some (Some b, filename)) true true)
  end.
Proof.
  destruct (filename_from_uri uri) as [filename|e] eqn:Huri.
  - by apply clip_dialog_run.
  - cbn [perform]. unfold EchonestExtension.__clip_dialog_cb. by rewrite Huri.
Qed.



(** X11. "Run echonest analysis" on an asset starts one daemon thread
    for the file of the asset, with no callback; when that thread runs,
    it may fill the cache, and the extension, the dialogs, the previewers
    and the threads stay as they are.  When the URI of the asset is no
    file name, the exception leaves the handler and no thread is
    started. *)
Theorem run_analysis_clicked_only_fills_the_cache `{Host} asset_uri w :
  match filename_from_uri asset_uri with
  | Raise e => EchonestExtension.__run_analysis_clicked_cb asset_uri w = (Raise e, w)
  | Return filename =>
      let w1 := set_threads (fun ts => ts ++ [Thread filename None None true true]) w in
      EchonestExtension.__run_analysis_clicked_cb asset_uri w = (Return tt, w1)
      /\ EchonestExtension.thread_run (length (threads w)) w1
         = EchonestExtension.analysis_worker filename None None w1
      /\ same_gui w1 (EchonestExtension.thread_run (length (threads w)) w1).2
  end.
Proof.
  unfold EchonestExtension.__run_analysis_clicked_cb.
  destruct (filename_from_uri asset_uri) as [filename|e]; [|done].
  cbv zeta. run. split; [apply analyse_track_run|].
  assert (Hrun : EchonestExtension.thread_run (length (threads w))
                   (set_threads (fun ts => ts ++ [Thread filename None None true true]) w)
                 = EchonestExtension.analysis_worker filename None None
                     (set_threads (fun ts => ts ++ [Thread filename None None true true]) w)).
  { unfold EchonestExtension.thread_run. unfold bind at 1, get at 1.
    cbn [threads set_threads]. by rewrite list_lookup_middle. }
  split; [done|]. rewrite Hrun.
  match goal with
  | |- same_gui ?w1 _ =>
      by destruct (analysis_worker_until_callback filename None None w1)
        as (w2 & Hgui & [[e ->] | [track ->]])
  end.
Qed.

(** ** The dialog once the analysis is displayed *)

Section Keeps.
Variable P : dialog -> Prop.

Lemma keeps_refl w : keeps P w w.
Proof. intros b d Hd HP. by exists d. Qed.

Lemma keeps_trans w1 w2 w3 : keeps P w1 w2 -> keeps P w2 w3 -> keeps P w1 w3.
Proof.
  intros H12 H23 b d Hd HP. destruct (H12 b d Hd HP) as (d2 & Hd2 & HP2).
  by apply (H23 b d2).
Qed.

Lemma keeps_modify f :
  (forall w, builders (f w) = builders w) -> preserves (keeps P) (modify f).
Proof. intros Hf w b d Hd HP. cbn. rewrite Hf. by exists d. Qed.

Lemma keeps_update_dialog b f :
  (forall d, P d -> P (f d)) -> preserves (keeps P) (update_dialog b f).
Proof.
  intros Hf w b' d Hd HP. cbn. rewrite list_lookup_alter.
  destruct (decide (b = b')) as [->|_]; [|by exists d].
  rewrite Hd. exists (f d). split; [done|]. by apply Hf.
Qed.

End Keeps.

Section Ready.
Context `{Host}.

Lemma init_returns_world track darea filename w self w1 :
  AudioPreviewer.__init__ track darea filename w = (Return self, w1) ->
  self = length (previewers w)
  /\ exists pv evs,
       w1 = set_builders (alter (with_waveform_area (connect_draw self)) darea)
              (set_previewers (fun ps => ps ++ [pv]) (emit evs w)).
Proof.
  rewrite init_run. repeat case_match; try done. cbv zeta.
  intros [= <- <-]. split; [done|]. by eexists _, _.
Qed.

Lemma keeps_ready_compute_markers p :
  preserves (keeps (matcher_ready p)) EchonestExtension.__compute_markers.
Proof.
  unfold EchonestExtension.__compute_markers, get_dialog, get_previewer,
    AudioPreviewer.set_markers, update_previewer.
  repeat preserves_step (keeps_refl (matcher_ready p)) (keeps_trans (matcher_ready p))
    ltac:(first [ apply keeps_update_dialog; intros []; done
                | apply keeps_modify; intros []; done ]).
Qed.

Lemma same_self_compute_markers :
  preserves same_self EchonestExtension.__compute_markers.
Proof.
  unfold EchonestExtension.__compute_markers, get_dialog, get_previewer,
    update_dialog, AudioPreviewer.set_markers, update_previewer.
  solve_same_self.
Qed.

(** The loop that makes the controls sensitive, on any list of
    identifiers. *)
Lemma make_sensitive_returns ids : forall w w' b d,
  for_each ids
    (fun id_ =>
       let* w := get in
       let* b := deref (__current_builder (self w)) in
       let* d := get_dialog b in
       let* d := deref (set_sensitive id_ d) in
       update_dialog b (fun _ => d)) w = (Return tt, w') ->
  __current_builder (self w) = Some b ->
  builders w !! b = Some d ->
  exists d',
    fold_left (fun acc id_ => acc ≫= set_sensitive id_) ids (Some d) = Some d'
    /\ w' = set_builders (fun bs => <[b := d']> bs) w.
Proof.
  induction ids as [|id_ ids IH]; intros w w' b d Hrun Hb Hd.
  - injection Hrun as <-. exists d. split; [done|].
    destruct w as [fs bs ps ts tr ext]. unfold set_builders. cbn in *.
    by rewrite list_insert_id.
  - cbn [for_each] in Hrun.
    apply bind_returns in Hrun as ([] & w1 & Hbody & Hrun).
    returned Hbody. returned Hbody as b0 Hb0. returned Hbody as d0 Hd0.
    returned Hbody as d1 Hd1. injection Hbody as <-.
    rewrite Hb in Hb0. injection Hb0 as <-.
    rewrite Hd in Hd0. injection Hd0 as <-.
    apply IH with (b := b) (d := d1) in Hrun as (d' & Hfold & ->); cycle 1.
    { done. }
    { cbn. by rewrite list_lookup_alter_eq, Hd. }
    exists d'. cbn [fold_left mbind option_bind]. rewrite Hd1. split; [done|].
    destruct w as [fs bs ps ts tr ext]. unfold set_builders. cbn.
    by rewrite insert_alter_same.
Qed.

Lemma prepare_beat_matcher_ready track filename w w' b :
  __current_builder (self w) = Some b ->
  EchonestExtension.__prepare_beat_matcher track filename w = (Return tt, w') ->
  exists d',
    builders w' !! b = Some d'
    /\ matcher_ready (length (previewers w)) d'
    /\ __audio_previewer (self w') = Some (length (previewers w)).
Proof.
  intros Hb Hrun. unfold EchonestExtension.__prepare_beat_matcher in Hrun.
  returned Hrun. returned Hrun as b0 Hb0. returned Hrun as d Hd.
  rewrite Hb in Hb0. injection Hb0 as <-.
  apply bind_returns in Hrun as (p & w1 & Hinit & Hrun).
  apply init_returns_world in Hinit as (-> & pv & evs & ->).
  set (p := length (previewers w)) in *.
  apply bind_returns in Hrun as ([] & w2 & [= <-] & Hrun).
  apply bind_returns in Hrun as ([] & w3 & [= <-] & Hrun).
  returned Hrun as all Hall. returned Hrun as markers Hmarkers.
  apply bind_returns in Hrun as ([] & w4 & Hset & Hrun).
  returned Hset. returned Hset as p' Hp'. injection Hset as <-.
  apply bind_returns in Hrun as ([] & w5 & Hloop & Hrun).
  eapply make_sensitive_returns with (b := b) in Hloop as (d5 & Hd5 & ->); cycle 1.
  { cbn. exact Hb. }
  { cbn. rewrite !list_lookup_alter_eq, Hd. reflexivity. }
  cbn in Hd5. injection Hd5 as <-.
  match type of Hrun with
  | _ ?w5 = _ =>
      pose proof (keeps_ready_compute_markers p w5) as Hkeeps;
      pose proof (same_self_compute_markers w5) as Hself
  end.
  rewrite Hrun in Hkeeps, Hself. cbn [snd] in Hkeeps, Hself.
  unfold same_self in Hself.
  edestruct Hkeeps as (d' & Hd' & Hready).
  { cbn. apply list_lookup_insert_eq. rewrite !length_alter.
    by eapply lookup_lt_Some. }
  { repeat split; cbn; set_solver. }
  exists d'. split; [done|]. split; [done|]. by rewrite Hself.
Qed.

End Ready.

(** X12. When the callback for the current builder returns, the
    dialog is ready for beat matching: its range, selection and
    distribution combos and its step spinner are sensitive, its waveform
    area has the style class "AudioUriSource" and draws with the new
    previewer, which is the previewer of the extension. *)
Theorem display_track_analysis_makes_the_matcher_ready `{Host} track filename w w' b :
  __current_builder (self w) = Some b ->
  EchonestExtension.__display_track_analysis track (Some b) filename w = (Return tt, w') ->
  exists d',
    builders w' !! b = Some d'
    /\ matcher_ready (length (previewers w)) d'
    /\ __audio_previewer (self w') = Some (length (previewers w)).
Proof.
  intros Hb Hrun. unfold EchonestExtension.__display_track_analysis in Hrun.
  returned Hrun. rewrite bool_decide_eq_true_2 in Hrun by done.
  cbn [negb] in Hrun.
  apply bind_returns in Hrun as ([] & w1 & [= <-] & Hrun).
  apply bind_returns in Hrun as ([] & w2 & Hfill & Hrun).
  pose proof (rows_only_fill_metadata_list track
                (set_self (with_current_track track) w)) as Hrows.
  rewrite Hfill in Hrows. destruct Hrows as (_ & Hpreviewers & _ & _ & Hcurrent & _).
  cbn in Hpreviewers, Hcurrent. rewrite <- Hpreviewers.
  eapply prepare_beat_matcher_ready; [|exact Hrun]. by rewrite Hcurrent.
Qed.

Lemma display_track_analysis_makes_the_matcher_ready_witness :
  let w' := (EchonestExtension.__display_track_analysis (H := Demo.host)
               (PyTrack Demo.analysed) (Some 0%nat) "/media/song.ogg"
               Demo.dialog_waiting).2 in
  exists d',
    builders w' !! 0%nat = Some d'
    /\ matcher_ready 0%nat d'
    /\ __audio_previewer (self w') = Some 0%nat.
Proof.
  apply (display_track_analysis_makes_the_matcher_ready (H := Demo.host)
           (PyTrack Demo.analysed) "/media/song.ogg" Demo.dialog_waiting _ 0%nat).
  - reflexivity.
  - vm_compute. reflexivity.
Defined.

(** ** When the cache cannot be written *)

(** X13. When the analysis has been downloaded and the cache file
    cannot be written (the open or the dump raises), the worker raises
    that exception: the service has been asked, the callback is not
    called, and the extension, the dialogs, the previewers and the threads
    are as they were. *)
Theorem analysis_worker_save_error_drops_the_analysis `{Host}
  filename callback data w loaded w1 t t' e w3 :
  EchonestExtension.__load_from_cache filename w = (Return loaded, w1) ->
  truthy loaded = false ->
  track_from_filename filename = Return t ->
  get_analysis t = Return t' ->
  EchonestExtension.__save_to_cache filename (PyTrack t')
    (emit [EvTrackFromFilename filename; EvGetAnalysis] w1) = (Raise e, w3) ->
  EchonestExtension.analysis_worker filename callback data w = (Raise e, w3)
  /\ same_gui w w3
  /\ exists evs, trace w3 = trace w ++ evs
       /\ existsb is_network evs = true /\ existsb is_callback evs = false.
Proof.
  intros Hload Hfalse Ht Ht' Hsave. split; [|split].
  - rewrite analysis_worker_unfold, Hload, after_load_miss_run by done.
    rewrite Ht. cbv zeta. by rewrite Ht', Hsave.
  - pose proof (same_gui_load_from_cache filename w) as H1.
    pose proof (same_gui_save_to_cache filename (PyTrack t')
                  (emit [EvTrackFromFilename filename; EvGetAnalysis] w1)) as H2.
    rewrite Hload in H1. rewrite Hsave in H2. cbn [snd] in H1, H2.
    eapply same_gui_trans; [exact H1|]. by destruct w1.
  - apply load_from_cache_returns in Hload as (h & Hh & ->).
    rewrite save_to_cache_run, Hh in Hsave. cbv zeta in Hsave.
    rewrite !emit_emit in Hsave. cbn [app] in Hsave.
    destruct (open_wb _ _) as [fs|e1]; [destruct (pickle_dump _) as [payload|e1]|];
      try done; injection Hsave as <- <-; eexists; (split; [reflexivity|done]).
Qed.

Lemma analysis_worker_save_error_drops_the_analysis_witness :
  let out := EchonestExtension.analysis_worker (H := Demo.host) "/media/song.ogg"
               (Some display_track_analysis_cb) (Some (Some 0%nat, "/media/song.ogg"))
               Demo.locked in
  out.1 = Raise (IOError EACCES) /\ same_gui Demo.locked out.2.
Proof.
  intros out.
  destruct (analysis_worker_save_error_drops_the_analysis (H := Demo.host)
              "/media/song.ogg" (Some display_track_analysis_cb)
              (Some (Some 0%nat, "/media/song.ogg")) Demo.locked PyNone
              (emit [EvHashFile "/media/song.ogg"; EvOpen Demo.analysis_file Rb] Demo.locked)
              Demo.uploaded Demo.analysed (IOError EACCES)
              (emit [EvHashFile "/media/song.ogg"; EvOpen Demo.analysis_file Rb;
                     EvTrackFromFilename "/media/song.ogg"; EvGetAnalysis;
                     EvHashFile "/media/song.ogg"; EvOpen Demo.analysis_file Wb]
                 Demo.locked))
    as (Hrun & Hgui & _).
  - vm_compute. reflexivity.
  - reflexivity.
  - reflexivity.
  - reflexivity.
  - vm_compute. reflexivity.
  - subst out. rewrite Hrun. split; [reflexivity|exact Hgui].
Defined.

(** X14. [__save_to_cache] opens the cache file for writing, which
    truncates it, before it dumps.  When the dump raises, the file holds
    what the dump had written by then, which is no complete pickle:
    unpickling it raises (EOFError on an empty file, UnpicklingError on
    a truncated stream), and that is no IOError.  From then on every
    analysis of that media file raises this exception before the service
    is asked or a callback called. *)
Theorem failed_dump_poisons_the_cache `{Host} filename track w h fs e e' :
  hash_file filename = Return h ->
  open_wb (files w) (analysis_path h) = Return fs ->
  pickle_dump track = Raise e ->
  pickle_load (pickle_dump_written track) = Raise e' ->
  isinstance_IOError e' = false ->
  let saved := EchonestExtension.__save_to_cache filename track w in
  saved.1 = Raise e
  /\ forall callback data,
       exists evs,
         EchonestExtension.analysis_worker filename callback data saved.2
           = (Raise e', emit evs saved.2)
         /\ existsb is_network evs = false /\ existsb is_callback evs = false.
Proof.
  intros Hh Hopen Hdump Htruncated Hother. cbv zeta.
  rewrite save_to_cache_run, Hh. cbv zeta. rewrite Hopen, Hdump.
  split; [done|]. intros callback data. cbn [snd].
  rewrite analysis_worker_unfold, load_from_cache_run, Hh. cbv zeta.
  cbn [files set_files emit set_trace].
  rewrite (open_wb_then_read _ _ _ _ Hopen). cbn [rbind].
  rewrite Htruncated, Hother.
  eexists. split; [reflexivity|done].
Qed.

Lemma failed_dump_poisons_the_cache_witness :
  let saved := EchonestExtension.__save_to_cache (H := Scenes.tracks_not_picklable)
                 "/media/song.ogg" (PyTrack Demo.analysed) Demo.fresh in
  saved.1 = Raise PicklingError
  /\ forall callback data,
       exists evs,
         EchonestExtension.analysis_worker (H := Scenes.tracks_not_picklable)
           "/media/song.ogg" callback data saved.2
           = (Raise UnpicklingError, emit evs saved.2)
         /\ existsb is_network evs = false /\ existsb is_callback evs = false.
Proof.
  apply (failed_dump_poisons_the_cache (H := Scenes.tracks_not_picklable)
           "/media/song.ogg" (PyTrack Demo.analysed) Demo.fresh "3b5d"
           {[ Demo.analysis_file := Regular true [] ]} PicklingError UnpicklingError).
  - reflexivity.
  - vm_compute. reflexivity.
  - reflexivity.
  - reflexivity.
  - reflexivity.
Defined.
